(** * BratSiemens: detection retention store, ingest handler, sender and monitor

    A shallow embedding of the Python sources

    - [ble_detection_app/data_storage.py]   (class [DataStorage]),
    - [pages/ble_detection_app/flask_server.py] (route [receive_data]),
    - [raspi/raspi_detection_sender.py]     ([send_image_data], [main]),
    - [ble_detection_app/image_utils.py]    ([ImageProcessor.draw_detections]),

    together with the properties the design document states about them.

    Python passes dicts by reference: [store_data] writes the time stamp
    into the caller's dict and keeps that very object as the channel's
    latest and as a history entry.  The embedding therefore has an object
    heap, and the store holds references into it. *)

From Stdlib Require Import ZArith QArith Qround String List Lia Lqa.
From stdpp Require Import gmap strings list fin_maps.

Set Warnings "-register-all".
Local Open Scope string_scope.
Local Open Scope list_scope.

(* ===================================================================== *)
(** ** Python values *)
(* ===================================================================== *)

Module Py.

(** The values a decoded JSON document is made of.  A finite float is
    represented by the rational it denotes. *)
Inductive value :=
| VNone
| VBool (b : bool)
| VInt (n : Z)
| VFloat (q : Q)
| VStr (s : string)
| VList (l : list value)
| VDict (d : gmap string value).

(** A dict with string keys, the shape of every payload. *)
Abbreviation dict := (gmap string value).

(** Truth value of an object, as [if v:] tests it. *)
Definition truthy (v : value) : bool :=
  match v with
  | VNone => false
  | VBool b => b
  | VInt n => negb (n =? 0)%Z
  | VFloat q => negb (Qeq_bool q 0)
  | VStr s => negb (String.eqb s "")
  | VList l => match l with [] => false | _ :: _ => true end
  | VDict d => negb (bool_decide (d = ∅))
  end.

(** [d.get(k, dflt)] *)
Definition get (d : dict) (k : string) (dflt : value) : value :=
  default dflt (d !! k).

(** [len(v)]; [None] where Python raises [TypeError].  Strings are
    byte strings here. *)
Definition len (v : value) : option nat :=
  match v with
  | VStr s => Some (String.length s)
  | VList l => Some (length l)
  | VDict d => Some (size d)
  | _ => None
  end.

End Py.

Import Py.

(* ===================================================================== *)
(** ** data_storage.py *)
(* ===================================================================== *)

Module Storage.

(** A reference to a dict object. *)
Definition loc := nat.

(** The dict objects of the process.  Every reference a caller holds
    denotes a live dict; a location without an entry reads as the empty
    dict, which keeps the operations total.  Only payload dicts are
    updated in place, so what they contain stays a value. *)
Abbreviation heap := (gmap loc dict).

Definition deref (h : heap) (r : loc) : dict := default ∅ (h !! r).

(** [data[k] = v], an update of the object in place. *)
Definition setitem (h : heap) (r : loc) (k : string) (v : value) : heap :=
  <[r := <[k := v]> (deref h r)]> h.

(** The fields of a [DataStorage] instance.  [_latest_data] and
    [_latest_raw_data] start as a private empty dict [{}] that no caller
    ever obtains (the getters hand out copies): [None] stands for it,
    [Some r] for the caller's object [r].  The lock is left out: each
    method body runs inside [with self._lock] and is one atomic step. *)
Record DataStorage := mkDataStorage {
  _latest_data : option loc;
  _latest_raw_data : option loc;
  _detection_history : list loc;
  _raw_history : list loc;
  _max_history : nat
}.

(** A state of the process: the heap and the store instance. *)
Record state := mkState {
  objs : heap;
  self : DataStorage
}.

(** [DataStorage.__init__] *)
Definition init : DataStorage :=
  {| _latest_data := None;
     _latest_raw_data := None;
     _detection_history := [];
     _raw_history := [];
     _max_history := 100 |}.

(** [lst.pop(0)] on a non-empty list, as a statement. *)
Definition pop0 (l : list loc) : list loc := tail l.

(** The history after [append(data)] and the eviction test. *)
Definition push (max : nat) (hist : list loc) (data : loc) : list loc :=
  let hist' := hist ++ [data] in
  if Nat.ltb max (length hist') then pop0 hist' else hist'.

(** The branch [store_data] takes: [data.get('raw_image', False)]. *)
Definition is_raw (h : heap) (data : loc) : bool :=
  truthy (get (deref h data) "raw_image" (VBool false)).

(** [DataStorage.store_data(data)]; [now] is what [time.time()] returns. *)
Definition store_data (data : loc) (now : Q) (st : state) : state :=
  let h := setitem (objs st) data "timestamp" (VFloat now) in
  let s := self st in
  if is_raw h data then
    {| objs := h;
       self := {| _latest_data := _latest_data s;
                  _latest_raw_data := Some data;
                  _detection_history := _detection_history s;
                  _raw_history := push (_max_history s) (_raw_history s) data;
                  _max_history := _max_history s |} |}
  else
    {| objs := h;
       self := {| _latest_data := Some data;
                  _latest_raw_data := _latest_raw_data s;
                  _detection_history :=
                    push (_max_history s) (_detection_history s) data;
                  _raw_history := _raw_history s;
                  _max_history := _max_history s |} |}.

(** The copy of a latest slot. *)
Definition snapshot (h : heap) (slot : option loc) : dict :=
  match slot with
  | None => ∅
  | Some r => deref h r
  end.

(** [get_latest_data()]: a copy of the processed channel's latest dict. *)
Definition get_latest_data (st : state) : dict :=
  snapshot (objs st) (_latest_data (self st)).

(** [get_latest_raw_data()] *)
Definition get_latest_raw_data (st : state) : dict :=
  snapshot (objs st) (_latest_raw_data (self st)).

(** [get_detection_count()]; [None] where [len] raises. *)
Definition get_detection_count (st : state) : option nat :=
  len (get (get_latest_data st) "detections" (VList [])).

(** [get_history()]: a copy of the list, holding the same objects. *)
Definition get_history (st : state) : list loc :=
  _detection_history (self st).

(** [get_raw_history()] *)
Definition get_raw_history (st : state) : list loc :=
  _raw_history (self st).

(** What a reader of a history sees: the dicts behind the references. *)
Definition contents (h : heap) (hist : list loc) : list dict :=
  deref h <$> hist.

(** [DataStorage.clear_data()] *)
Definition clear_data (st : state) : state :=
  {| objs := objs st;
     self := {| _latest_data := None;
                _latest_raw_data := None;
                _detection_history := [];
                _raw_history := [];
                _max_history := _max_history (self st) |} |}.

(** A [store_data] call: the object and the clock reading. *)
Abbreviation call := (loc * Q)%type.

(** A sequence of [store_data] calls, in order. *)
Definition run (calls : list call) (st : state) : state :=
  foldl (fun acc c => store_data (fst c) (snd c) acc) st calls.

(** The process right after [data_store = DataStorage()]. *)
Definition boot (h : heap) : state := {| objs := h; self := init |}.

(** The methods that change the store. *)
Inductive op :=
| Store (data : loc) (now : Q)
| Clear.

Definition step (st : state) (o : op) : state :=
  match o with
  | Store data now => store_data data now st
  | Clear => clear_data st
  end.

(** A history of the store: its mutating calls, in order. *)
Definition exec (ops : list op) (st : state) : state := foldl step st ops.

(** The two channels of the store. *)
Inductive channel := processed | raw.

#[global] Instance channel_eq_dec : EqDecision channel.
Proof. solve_decision. Defined.

(** The channel [store_data] files an object under. *)
Definition channel_of (h : heap) (data : loc) : channel :=
  if is_raw h data then raw else processed.

(** The fields and the getters of a channel. *)
Definition latest_ref (ch : channel) (s : DataStorage) : option loc :=
  match ch with
  | processed => _latest_data s
  | raw => _latest_raw_data s
  end.

Definition history_refs (ch : channel) (s : DataStorage) : list loc :=
  match ch with
  | processed => _detection_history s
  | raw => _raw_history s
  end.

Definition GetLatest (ch : channel) (st : state) : dict :=
  match ch with
  | processed => get_latest_data st
  | raw => get_latest_raw_data st
  end.

Definition GetHistory (ch : channel) (st : state) : list loc :=
  match ch with
  | processed => get_history st
  | raw => get_raw_history st
  end.

(** The calls of a sequence that go to channel [ch]; the flag is read
    in the heap [h]. *)
Definition calls_to (h : heap) (ch : channel) (calls : list call)
  : list call :=
  filter (fun c => channel_of h (fst c) = ch) calls.

(** The payload as [store_data] leaves it. *)
Definition stamped (now : Q) (d : dict) : dict :=
  <["timestamp" := VFloat now]> d.

(** The objects a channel holds on to. *)
Definition holds (ch : channel) (s : DataStorage) (r : loc) : Prop :=
  latest_ref ch s = Some r \/ r ∈ history_refs ch s.

(** Every object sits in the channel its [raw_image] says.  It holds at
    start-up and the store's methods keep it. *)
Definition consistent (st : state) : Prop :=
  forall ch r, holds ch (self st) r -> channel_of (objs st) r = ch.

End Storage.

Import Storage.

(* ===================================================================== *)
(** ** flask_server.py *)
(* ===================================================================== *)

Module Flask.

(** The exceptions the handler can meet. *)
Inductive exn :=
| TypeError
| AttributeError
| Raised (msg : string).

(** An incoming request: [request.is_json] and what
    [request.get_json()] does, return the decoded document or raise. *)
Record request := mkRequest {
  is_json : bool;
  get_json : exn + value
}.

(** What the route returns. *)
Inductive response :=
| Rejected415                          (* {'error': 'Content-Type must be application/json'}, 415 *)
| Success200 (received_count : nat)    (* {'status': 'success', 'received_count': n}, 200 *)
| Error500 (e : exn).                  (* {'error': str(e)}, 500 *)

(** [ble_handler.py] is not among the sources.  [send_data] is taken as
    a parameter: it reads the payload and returns ([None]) or raises. *)
Definition BLEHandler := value -> option exn.

(** [FlaskServer]: [self.ble_handler] is [None] when the import failed. *)
Record FlaskServer := mkFlaskServer {
  ble_handler : option BLEHandler
}.

(** The process: the heap and the module global [data_store], which is
    [None] when its import failed. *)
Record world := mkWorld {
  w_objs : heap;
  data_store : option DataStorage
}.

(** The object a name is bound to: a dict lives in the heap, any other
    document is its own value. *)
Inductive obj :=
| ODict (r : loc)
| OVal (v : value).

Definition read (h : heap) (o : obj) : value :=
  match o with
  | ODict r => VDict (deref h r)
  | OVal v => v
  end.

(** Statements of the handler: they change the world and return or
    raise. *)
Definition M (A : Type) : Type := world -> (exn + A) * world.

Definition ret {A} (a : A) : M A := fun w => (inr a, w).
Definition bind {A B} (m : M A) (k : A -> M B) : M B :=
  fun w => match m w with
           | (inl e, w') => (inl e, w')
           | (inr a, w') => k a w'
           end.

#[local] Instance handler_ret : MRet M := @ret.
#[local] Instance handler_bind : MBind M := fun A B k m => bind m k.

Definition lift {A} (r : exn + A) : M A := fun w => (r, w).

(** The document [get_json] built: a dict is a new object. *)
Definition new_object (v : value) : M obj :=
  fun w =>
    match v with
    | VDict d =>
        let r := fresh (dom (w_objs w)) in
        (inr (ODict r),
         {| w_objs := <[r := d]> (w_objs w); data_store := data_store w |})
    | _ => (inr (OVal v), w)
    end.

(** [if data_store: data_store.store_data(content)].  On anything but a
    dict the first statement of [store_data], the item assignment,
    raises [TypeError] before any change. *)
Definition store (content : obj) (now : Q) : M unit :=
  fun w =>
    match data_store w with
    | None => (inr tt, w)
    | Some ds =>
        match content with
        | ODict r =>
            let st := store_data r now {| objs := w_objs w; self := ds |} in
            (inr tt, {| w_objs := objs st; data_store := Some (self st) |})
        | OVal _ => (inl TypeError, w)
        end
    end.

(** [if self.ble_handler: asyncio.run(self.ble_handler.send_data(content))] *)
Definition send_ble (srv : FlaskServer) (content : obj) : M unit :=
  fun w =>
    match ble_handler srv with
    | None => (inr tt, w)
    | Some send_data =>
        match send_data (read (w_objs w) content) with
        | None => (inr tt, w)
        | Some e => (inl e, w)
        end
    end.

(** [len(content.get('detections', []))] *)
Definition received_count (content : obj) : M nat :=
  fun w =>
    match read (w_objs w) content with
    | VDict d =>
        match len (get d "detections" (VList [])) with
        | Some n => (inr n, w)
        | None => (inl TypeError, w)
        end
    | _ => (inl AttributeError, w)
    end.

(** The [try] block of [receive_data]. *)
Definition receive_data_try (srv : FlaskServer) (req : request) (now : Q)
  : M response :=
  if negb (is_json req) then mret Rejected415
  else
    v ← lift (get_json req);
    content ← new_object v;
    store content now;;
    send_ble srv content;;
    n ← received_count content;
    mret (Success200 n).

(** [receive_data]: the [except Exception] clause turns whatever was
    raised into a 500 response; the changes made before stay. *)
Definition receive_data (srv : FlaskServer) (req : request) (now : Q)
    (w : world) : response * world :=
  match receive_data_try srv req now w with
  | (inr resp, w') => (resp, w')
  | (inl e, w') => (Error500 e, w')
  end.

(** What the route answers once [content] is stored. *)
Definition answer (srv : FlaskServer) (content : dict) : response :=
  let count :=
    match len (get content "detections" (VList [])) with
    | Some n => Success200 n
    | None => Error500 TypeError
    end in
  match ble_handler srv with
  | None => count
  | Some send_data =>
      match send_data (VDict content) with
      | None => count
      | Some e => Error500 e
      end
  end.

(** The store's view of a world that has one. *)
Definition view (w : world) : option state :=
  (fun ds => {| objs := w_objs w; self := ds |}) <$> data_store w.

(** What the two latest getters return in a world with a store. *)
Definition latest (w : world) : option dict := get_latest_data <$> view w.
Definition latest_raw (w : world) : option dict := get_latest_raw_data <$> view w.

End Flask.

(* ===================================================================== *)
(** ** Numbers *)
(* ===================================================================== *)

Module Num.

(** [int(x)] of a float: truncation toward zero. *)
Definition trunc (q : Q) : Z :=
  if Qle_bool 0 q then Qfloor q else Qceiling q.

(** [int(v)]; [None] where Python raises.  A string is parsed by
    Python; no payload of the sender carries one as a coordinate and the
    embedding leaves that case out with the rejected ones. *)
Definition int (v : value) : option Z :=
  match v with
  | VInt n => Some n
  | VBool b => Some (if b then 1 else 0)%Z
  | VFloat q => Some (trunc q)
  | _ => None
  end.

(** Float arithmetic: the exact result, then one rounding to the float
    format.  The rounding [rnd] is a parameter; overflow and NaN are
    outside the embedding. *)
Section Float.
Variable rnd : Q -> Q.

Definition fadd (a b : Q) : Q := rnd (a + b)%Q.
Definition fsub (a b : Q) : Q := rnd (a - b)%Q.
Definition fdiv (a b : Q) : Q := rnd (a / b)%Q.

(** [(a + b) / 2] *)
Definition midpoint (a b : Q) : Q := fdiv (fadd a b) 2%Q.
End Float.

(** What the theorems ask of a rounding: it is monotone and leaves the
    integers up to [2^53] alone, as round-to-nearest of binary64 does. *)
Record rounding (rnd : Q -> Q) : Prop := mkRounding {
  rnd_mono : forall x y : Q, (x <= y)%Q -> (rnd x <= rnd y)%Q;
  rnd_int : forall n : Z,
    (Z.abs n <= 2 ^ 53)%Z -> (rnd (inject_Z n) == inject_Z n)%Q
}.

(** A rounding to compute with: to the nearest multiple of [2^-10],
    ties upward. *)
Definition rnd_grid (q : Q) : Q :=
  Qmake (Qfloor (q * 1024 + (1 # 2))%Q) 1024.

End Num.

Import Num.

(* ===================================================================== *)
(** ** raspi_detection_sender.py *)
(* ===================================================================== *)

Module Sender.

(** A frame: [shape[0]] (height), [shape[1]] (width) and the pixels,
    which stay opaque. *)
Record image := mkImage {
  shape0 : Z;
  shape1 : Z;
  pixels : string
}.

(** One entry of [res[0].boxes]: [box.cls.item()], [box.conf.item()]
    and [box.xyxy[0].tolist()]. *)
Record box := mkBox {
  cls : Q;
  conf : Q;
  x1 : Q; y1 : Q; x2 : Q; y2 : Q
}.

(** What an iteration of the loop does to the outside. *)
Inductive event :=
| EvDetect (img : image)       (* model(cropped, verbose=False) *)
| EvPost (payload : dict)      (* requests.post(API_URL, json=payload, timeout=3) *)
| EvSleep.                     (* time.sleep(0.1) *)

Section Loop.
(** The float format. *)
Variable rnd : Q -> Q.
(** [encode_image_to_base64]: [cv2.imencode] and [base64]. *)
Variable encode_image_to_base64 : image -> string.
(** [ImgCropDetect.aruco_cropper] is not among the sources:
    [cropper.get_cropped_image]. *)
Variable get_cropped_image : option image -> option image.
(** The detector: [model.names] and the boxes [model(cropped)] finds. *)
Variable names : gmap Z string.
Variable model : image -> list box.

(** [target] in [main] *)
Definition target : list string := ["triangle"; "rectangle"; "arch"; "cube"].

(** [ids = [i for i, n in model.names.items() if n in target]] *)
Definition ids : list Z :=
  fst <$> filter (fun p => snd p ∈ target) (map_to_list names).

(** The dict [main] appends for one box; [c] is in [ids], so
    [model.names[c]] is there. *)
Definition detection (h : Z) (c : Z) (b : box) : dict :=
  let cx := midpoint rnd (x1 b) (x2 b) in
  let cy := midpoint rnd (y1 b) (y2 b) in
  {[ "class" := VStr (default "" (names !! c));
     "confidence" := VFloat (conf b);
     "center_px" := VList [VFloat cx; VFloat (fsub rnd (inject_Z h) cy)] ]}.

(** The [for box in res[0].boxes] loop of [main]: [dets]. *)
Fixpoint collect (h : Z) (boxes : list box) : list dict :=
  match boxes with
  | [] => []
  | b :: rest =>
      let c := trunc (cls b) in
      if bool_decide (c ∈ ids) then detection h c b :: collect h rest
      else collect h rest
  end.

(** The payload [send_image_data(image, detections, is_raw)] posts;
    [stamp] is [time.strftime("%Y%m%d_%H%M%S")]. *)
Definition send_image_data (img : image) (detections : list dict)
    (is_raw : bool) (stamp : string) : dict :=
  let h := shape0 img in
  let w := shape1 img in
  {[ "image" := VStr (encode_image_to_base64 img);
     "timestamp" := VStr stamp;
     "detections" := VList (if negb is_raw then VDict <$> detections else []);
     "crop_shape" := VList [VInt w; VInt h];
     "raw_image" := VBool is_raw ]}.

(** One iteration of [while True] in [main]: [send_raw_mode] is the
    global as read by the [if], [frame] what [cropper.capture_frame()]
    returned. *)
Definition iteration (send_raw_mode : bool) (frame : option image)
    (stamp : string) : list event :=
  if send_raw_mode then
    match frame with
    | Some f => [EvPost (send_image_data f [] true stamp)]
    | None => []
    end ++ [EvSleep]
  else
    match get_cropped_image frame with
    | None => []                                  (* continue *)
    | Some cropped =>
        let h := shape0 cropped in
        let dets := collect h (model cropped) in
        [EvDetect cropped;
         EvPost (send_image_data cropped dets false stamp);
         EvSleep]
    end.
End Loop.

(** The payloads an iteration posted and the frames it ran the detector
    on, in order. *)
Definition posts (evs : list event) : list dict :=
  omap (fun e => match e with EvPost p => Some p | _ => None end) evs.

Definition detector_calls (evs : list event) : list image :=
  omap (fun e => match e with EvDetect img => Some img | _ => None end) evs.

End Sender.

(* ===================================================================== *)
(** ** image_utils.py *)
(* ===================================================================== *)

Module Monitor.

(** What [draw_detections] puts on the copy of the image. *)
Inductive draw :=
| Circle (center : Z * Z) (radius : Z)        (* cv2.circle(img_copy, (x, y), 5, (0, 255, 0), -1) *)
| PutText (text : string) (org : Z * Z).      (* cv2.putText(img_copy, label, (x + 10, y), ...) *)

Section Drawing.
(** [str(v)] and [format(x, '.2f')], left to Python. *)
Variable str : value -> string.
Variable format_2f : Q -> string.

(** The number a [:.2f] field formats; [None] where formatting raises. *)
Definition number (v : value) : option Q :=
  match v with
  | VInt n => Some (inject_Z n)
  | VFloat q => Some q
  | VBool b => Some (if b then 1 else 0)%Q
  | _ => None
  end.

(** [f"{det.get('class', '')} ({det.get('confidence', 0):.2f})"] *)
Definition label (det : dict) : option string :=
  match number (get det "confidence" (VInt 0)) with
  | Some q =>
      Some (str (get det "class" (VStr "")) +:+ " (" +:+ format_2f q +:+ ")")
  | None => None
  end.

(** [x, y = map(int, det['center_px'])]; [None] where it raises.  The
    embedding covers a list, the shape the sender gives the centre. *)
Definition unpack_center (v : value) : option (Z * Z) :=
  match v with
  | VList [a; b] =>
      match int a, int b with
      | Some x, Some y => Some (x, y)
      | _, _ => None
      end
  | _ => None
  end.

(** The body of the [for det in detections] loop; [rows] is
    [img.shape[0]]. *)
Definition draw_one (rows : Z) (det : dict) : option (list draw) :=
  match det !! "center_px" with
  | None => Some []
  | Some c =>
      match unpack_center c with
      | None => None
      | Some (x, y0) =>
          let y := (rows - y0)%Z in
          match label det with
          | None => None
          | Some text => Some [Circle (x, y) 5; PutText text ((x + 10)%Z, y)]
          end
      end
  end.

(** [ImageProcessor.draw_detections(img, detections)]: the drawing
    commands applied to [img_copy], in order. *)
Fixpoint draw_detections (rows : Z) (detections : list dict)
  : option (list draw) :=
  match detections with
  | [] => Some []
  | det :: rest =>
      match draw_one rows det with
      | None => None
      | Some ops =>
          match draw_detections rows rest with
          | None => None
          | Some ops' => Some (ops ++ ops')
          end
      end
  end.
End Drawing.

(** The magnitude up to which the float format holds every integer: the
    flipped coordinate [rows - y] stays inside it. *)
Definition in_range (rows : Z) (y : Q) : Prop :=
  (- inject_Z (2 ^ 53 - 1) <= inject_Z rows - y <= inject_Z (2 ^ 53 - 1))%Q.

End Monitor.

(* ===================================================================== *)
(** ** Concrete runs *)
(* ===================================================================== *)

Module Scenario.

(** Object [#i]: a processed payload with a sequence marker. *)
Definition numbered (i : nat) : dict :=
  {[ "image" := VStr "/9j/4AAQ";
     "detections" := VList [];
     "raw_image" := VBool false;
     "seq" := VInt (Z.of_nat i) ]}.

(** The objects [#1 .. #101] and their submission, one after another. *)
Definition heap101 : heap :=
  list_to_map ((fun i => (i, numbered i)) <$> seq 1 101).

Definition calls101 : list call :=
  (fun i => (i, inject_Z (1700000000 + Z.of_nat i))) <$> seq 1 101.

(** A payload of the sender, with its own time stamp. *)
Definition sent : dict :=
  {[ "image" := VStr "/9j/4AAQ";
     "timestamp" := VStr "20250101_120000";
     "detections" := VList [];
     "crop_shape" := VList [VInt 640; VInt 480];
     "raw_image" := VBool false ]}.

(** A submission without the image field. *)
Definition no_image : dict := {[ "detections" := VList [] ]}.

(** A submission whose detections are [null]. *)
Definition null_detections : dict :=
  {[ "image" := VStr "/9j/4AAQ"; "detections" := VNone ]}.

(** A state the store's own methods never reach: object [1] was stored
    as a processed payload, and its owner then set [raw_image] on it. *)
Definition reflagged : state :=
  {| objs := {[ 1 := {[ "image" := VStr "/9j/4AAQ";
                        "raw_image" := VBool true;
                        "timestamp" := VFloat (inject_Z 1700000000) ]} ]};
     self := {| _latest_data := Some 1;
                _latest_raw_data := None;
                _detection_history := [1];
                _raw_history := [];
                _max_history := 100 |} |}.

(** A captured frame, 640 by 480. *)
Definition frame : Sender.image :=
  {| Sender.shape0 := 480; Sender.shape1 := 640; Sender.pixels := "/9j/4AAQ" |}.

(** A raw payload whose detections are not even a list. *)
Definition raw_with_junk : dict :=
  {[ "image" := VStr "/9j/4AAQ";
     "raw_image" := VBool true;
     "detections" := VInt 7 ]}.

(** A detector with two classes of interest and one box of class
    [arch], centred at [(20.5, 30.5)], in a frame 480 rows high. *)
Definition names : gmap Z string :=
  {[ 0%Z := "cube"; 1%Z := "person"; 2%Z := "arch" ]}.

Definition arch_box : Sender.box :=
  {| Sender.cls := 2; Sender.conf := 9 # 10;
     Sender.x1 := 10; Sender.y1 := 20; Sender.x2 := 31; Sender.y2 := 41 |}.

End Scenario.

(* ===================================================================== *)
(** ** flask_server.py, the other routes *)
(* ===================================================================== *)

Module Routes.
Import Flask.

(** What a [GET] route, or [POST /clear], returns. *)
Inductive reply :=
| Ok (body : dict)       (* jsonify(body), 200 *)
| Failed (e : exn).      (* jsonify({'error': str(e)}), 500 *)

(** The body [get_data] sends when there is no store. *)
Definition no_store_body : dict :=
  {[ "detections" := VList [];
     "message" := VStr "No data store available" ]}.

(** [get_data], the route [GET /get]. *)
Definition get_data (w : world) : reply :=
  match view w with
  | Some st => Ok (get_latest_data st)
  | None => Ok no_store_body
  end.

(** The body of [get_status]. *)
Definition status_body (srv : FlaskServer) (detection_count : Z)
    (timestamp : value) (data_store_available : bool) : dict :=
  {[ "status" := VStr "running";
     "detection_count" := VInt detection_count;
     "timestamp" := timestamp;
     "ble_available" := VBool (bool_decide (is_Some (ble_handler srv)));
     "data_store_available" := VBool data_store_available ]}.

(** [get_status], the route [GET /status]: the count is taken first and
    may raise. *)
Definition get_status (srv : FlaskServer) (w : world) : reply :=
  match view w with
  | Some st =>
      match get_detection_count st with
      | None => Failed TypeError
      | Some n =>
          Ok (status_body srv (Z.of_nat n)
                (get (get_latest_data st) "timestamp" (VInt 0)) true)
      end
  | None => Ok (status_body srv 0 (VInt 0) false)
  end.

(** [clear_data], the route [POST /clear]. *)
Definition clear_data (w : world) : reply * world :=
  match view w with
  | Some st =>
      let st' := Storage.clear_data st in
      (Ok {[ "status" := VStr "cleared" ]},
       {| w_objs := objs st'; data_store := Some (self st') |})
  | None => (Ok {[ "status" := VStr "no data store available" ]}, w)
  end.

(** The requests that can change the process. *)
Inductive post :=
| PostData (req : request) (now : Q)
| PostClear.

Definition serve (srv : FlaskServer) (w : world) (p : post) : world :=
  match p with
  | PostData req now => snd (receive_data srv req now w)
  | PostClear => snd (clear_data w)
  end.

(** The process at start-up, with its store, and after a sequence of
    requests. *)
Definition start (h : heap) : world :=
  {| w_objs := h; data_store := Some init |}.

Definition served (srv : FlaskServer) (posts : list post) (h : heap) : world :=
  foldl (serve srv) (start h) posts.

(** The store refers to objects of the heap only. *)
Definition refs_live (w : world) : Prop :=
  forall ds ch r, data_store w = Some ds -> holds ch ds r -> r ∈ dom (w_objs w).

(** A request carrying the JSON document [v]. *)
Definition json (v : value) : request :=
  {| is_json := true; get_json := inr v |}.

End Routes.

(* ===================================================================== *)
(** ** raspi_detection_sender.py, the command listener *)
(* ===================================================================== *)

Module Listener.

(** What [input()] does: return a line, or raise [EOFError] or
    [KeyboardInterrupt]. *)
Inductive input :=
| Line (s : string)
| Interrupt.

Section Listener.
(** [s.strip().lower()], left to Python. *)
Variable normalize : string -> string.

(** [command_listener]: the loop over the inputs that have arrived.  It
    returns the global [send_raw_mode] and whether the loop was left, by
    [quit] or by an exception of [input]. *)
Fixpoint command_listener (inputs : list input) (send_raw_mode : bool)
  : bool * bool :=
  match inputs with
  | [] => (send_raw_mode, false)
  | Interrupt :: _ => (send_raw_mode, true)
  | Line s :: rest =>
      let cmd := normalize s in
      if String.eqb cmd "raw" then command_listener rest (negb send_raw_mode)
      else if String.eqb cmd "quit" then (send_raw_mode, true)
      else command_listener rest send_raw_mode
  end.
End Listener.

End Listener.

(* ===================================================================== *)
(** ** image_utils.py and streamlit_ui.py, what the monitor shows *)
(* ===================================================================== *)

Module Display.
Import Sender Monitor.

(** An image as the monitor shows it: the decoded frame and what
    [draw_detections] put on its copy. *)
Record picture := mkPicture {
  base : image;
  drawn : list draw
}.

(** The status texts of [process_detection_data]. *)
Inductive status :=
| NoImageData               (* "No image data available" *)
| DecodeFailed              (* "Failed to decode image" *)
| RawCameraImage            (* "Raw camera image" *)
| Detections (n : nat)      (* f"Detections: {len(detections)}" *)
| NoDetections.             (* "No detections found" *)

(** [needle in hay] on strings. *)
Definition contains (needle hay : string) : bool :=
  match String.index 0 needle hay with
  | Some _ => true
  | None => false
  end.

(** The single characters of a string, what iterating over it yields. *)
Fixpoint chars (s : string) : list string :=
  match s with
  | EmptyString => []
  | String c rest => String c EmptyString :: chars rest
  end.

(** What [for det in detections] iterates over; [None] where the value is
    not iterable.  A dict yields its keys. *)
Definition iterate (v : value) : option (list value) :=
  match v with
  | VList l => Some l
  | VStr s => Some (VStr <$> chars s)
  | VDict d => Some (VStr <$> (fst <$> map_to_list d))
  | _ => None
  end.

Section Display.
Variable str : value -> string.
Variable format_2f : Q -> string.
(** [base64.b64decode], [np.frombuffer], [cv2.imdecode] and
    [cv2.cvtColor]: [None] when [imdecode] returns [None] or one of them
    raises. *)
Variable imdecode : string -> option image.

(** [ImageProcessor.decode_base64_image] *)
Definition decode_base64_image (img_b64 : value) : option image :=
  match img_b64 with
  | VStr s => if String.eqb s "" then None else imdecode s
  | _ => None
  end.

(** The body of the loop of [draw_detections] on any element: a dict is
    drawn by [draw_one]; on a string or a list the test
    ['center_px' in det] is a search, and the subscript that follows a
    hit raises; on anything else the test itself raises. *)
Definition draw_element (rows : Z) (det : value) : option (list draw) :=
  match det with
  | VDict d => draw_one str format_2f rows d
  | VStr s => if contains "center_px" s then None else Some []
  | VList l =>
      if existsb (fun x => match x with
                           | VStr s => String.eqb s "center_px"
                           | _ => false
                           end) l
      then None else Some []
  | _ => None
  end.

Fixpoint draw_elements (rows : Z) (dets : list value) : option (list draw) :=
  match dets with
  | [] => Some []
  | det :: rest =>
      match draw_element rows det with
      | None => None
      | Some ops =>
          match draw_elements rows rest with
          | None => None
          | Some ops' => Some (ops ++ ops')
          end
      end
  end.

(** [draw_detections(img, detections)] as [process_detection_data] calls
    it, on whatever the payload has under ["detections"]. *)
Definition draw_values (rows : Z) (detections : value) : option (list draw) :=
  match iterate detections with
  | None => None
  | Some dets => draw_elements rows dets
  end.

(** [ImageProcessor.process_detection_data(data)]: the image, if any, and
    the status; [None] where it raises. *)
Definition process_detection_data (data : dict)
  : option (option picture * status) :=
  let detections := get data "detections" (VList []) in
  let is_raw_image := get data "raw_image" (VBool false) in
  let img_b64 := get data "image" VNone in
  if negb (truthy img_b64) then Some (None, NoImageData)
  else
    match decode_base64_image img_b64 with
    | None => Some (None, DecodeFailed)
    | Some img =>
        if truthy is_raw_image
        then Some (Some {| base := img; drawn := [] |}, RawCameraImage)
        else if truthy detections then
          match draw_values (shape0 img) detections with
          | None => None
          | Some ops =>
              match len detections with
              | Some n => Some (Some {| base := img; drawn := ops |}, Detections n)
              | None => None
              end
          end
        else Some (Some {| base := img; drawn := [] |}, NoDetections)
    end.

(** What a tab of [StreamlitUI.run] ends up showing. *)
Inductive panel :=
| Shown (img : picture) (st : status)   (* placeholder.image(img, ...); status.success(...) *)
| Waiting.                              (* placeholder.info(...); status.info(...) *)

(** The processed tab of [StreamlitUI.run] for the data [GET /get]
    returned; [None] where it raises. *)
Definition show_processed (processed_data : dict) : option panel :=
  if truthy (VDict processed_data)
     && truthy (get processed_data "detections" VNone)
  then
    match process_detection_data processed_data with
    | None => None
    | Some (Some img, st) => Some (Shown img st)
    | Some (None, _) => Some Waiting
    end
  else Some Waiting.

(** The raw tab, for the data [GET /get_raw] returned. *)
Definition show_raw (raw_data : dict) : option panel :=
  if truthy (VDict raw_data)
     && truthy (get raw_data "raw_image" (VBool false))
  then
    match process_detection_data raw_data with
    | None => None
    | Some (Some img, st) => Some (Shown img st)
    | Some (None, _) => Some Waiting
    end
  else Some Waiting.
End Display.

End Display.

(* ===================================================================== *)
(** ** detect_label.py *)
(* ===================================================================== *)

Module Labeler.

(** [classes] *)
Definition classes : gmap string Z :=
  {[ "triangle" := 0%Z; "rectangle" := 1%Z; "arch" := 2%Z;
     "half-circle" := 3%Z; "cylinder" := 4%Z; "cube" := 5%Z ]}.

(** What OpenCV reports of a contour: [cv2.contourArea(contour)],
    [len(approx)] and [cv2.isContourConvex(approx)] of its polygon, and
    [cv2.boundingRect(contour)]. *)
Record contour := mkContour {
  area : Q;
  vertices : nat;
  convex : bool;
  bx : Z; by_ : Z; bw : Z; bh : Z
}.

(** [blur_val | 1], the kernel size handed to [cv2.GaussianBlur]. *)
Definition kernel (blur_val : Z) : Z := Z.lor blur_val 1.

Section Labeler.
(** The float format. *)
Variable rnd : Q -> Q.

(** [float(n)] and a float literal. *)
Definition float (n : Z) : Q := rnd (inject_Z n).
Definition lit (q : Q) : Q := rnd q.

(** [a / b] on floats; [None] for [ZeroDivisionError]. *)
Definition div (a b : Q) : option Q :=
  if Qeq_bool b 0 then None else Some (rnd (a / b)%Q).

(** The label [detect_shapes_and_label] gives a contour; [None] where a
    division raises. *)
Definition shape_label (c : contour) : option string :=
  if Nat.eqb (vertices c) 3 then Some "triangle"
  else if Nat.eqb (vertices c) 4 then
    match div (float (bw c)) (float (bh c)) with
    | None => None
    | Some aspect_ratio =>
        Some (if Qle_bool (lit (95 # 100)) aspect_ratio
                 && Qle_bool aspect_ratio (lit (105 # 100))
              then "cube" else "rectangle")
    end
  else if Nat.eqb (vertices c) 5 then Some "arch"
  else if negb (convex c) then Some "arch"
  else
    match div (area c) (float (bw c * bh c)) with
    | None => None
    | Some fill_ratio =>
        Some (if Qle_bool (lit (7 # 10)) fill_ratio
              then "cylinder" else "half-circle")
    end.

(** A line of a label file: the class and the box, centre and size, as
    fractions of the frame. *)
Definition labeled : Type := Z * Q * Q * Q * Q.

(** The tuple appended for a contour in a frame [H] rows by [W]
    columns; [None] where the body raises. *)
Definition label_contour (H W : Z) (c : contour) : option labeled :=
  match shape_label c with
  | None => None
  | Some shape =>
      match classes !! shape with
      | None => None                                  (* KeyError *)
      | Some cls_id =>
          match div (inject_Z (bw c)) 2, div (inject_Z (bh c)) 2 with
          | Some half_w, Some half_h =>
              let cx := rnd (float (bx c) + half_w)%Q in
              let cy := rnd (float (by_ c) + half_h)%Q in
              match div cx (float W), div cy (float H),
                    div (inject_Z (bw c)) (inject_Z W),
                    div (inject_Z (bh c)) (inject_Z H) with
              | Some ncx, Some ncy, Some nw, Some nh =>
                  Some (cls_id, ncx, ncy, nw, nh)
              | _, _, _, _ => None
              end
          | _, _ => None
          end
      end
  end.

(** The loop of [detect_shapes_and_label] over the contours found:
    [labeled_objects].  Contours of area below 300 are passed over. *)
Fixpoint detect_shapes_and_label (H W : Z) (contours : list contour)
  : option (list labeled) :=
  match contours with
  | [] => Some []
  | c :: rest =>
      if negb (Qle_bool 300 (area c)) then detect_shapes_and_label H W rest
      else
        match label_contour H W c with
        | None => None
        | Some l =>
            match detect_shapes_and_label H W rest with
            | None => None
            | Some ls => Some (l :: ls)
            end
        end
  end.
End Labeler.

(** A contour whose bounding box lies inside a frame [H] by [W]. *)
Definition inside (H W : Z) (c : contour) : Prop :=
  (0 <= bx c /\ 0 < bw c /\ bx c + bw c <= W /\
   0 <= by_ c /\ 0 < bh c /\ by_ c + bh c <= H /\
   W <= 2 ^ 53 /\ H <= 2 ^ 53)%Z.

(** The contours the loop does not pass over. *)
Definition large (c : contour) : bool := Qle_bool 300 (area c).

(** A label line whose class is one of the six and whose numbers are
    fractions of the frame. *)
Definition normalised (l : labeled) : Prop :=
  let '(cls_id, ncx, ncy, nw, nh) := l in
  (0 <= cls_id <= 5)%Z /\
  (0 <= ncx <= 1 /\ 0 <= ncy <= 1 /\ 0 <= nw <= 1 /\ 0 <= nh <= 1)%Q.

End Labeler.

(** Contours to compute with, in a frame 480 by 640. *)
Module Samples.

Definition square : Labeler.contour :=
  {| Labeler.area := 1600; Labeler.vertices := 4; Labeler.convex := true;
     Labeler.bx := 100; Labeler.by_ := 200; Labeler.bw := 40; Labeler.bh := 40 |}.

Definition speck : Labeler.contour :=
  {| Labeler.area := 12; Labeler.vertices := 7; Labeler.convex := true;
     Labeler.bx := 5; Labeler.by_ := 5; Labeler.bw := 4; Labeler.bh := 3 |}.

End Samples.

(* ===================================================================== *)
(** * Properties *)
(* ===================================================================== *)

(** ** The heap *)

Lemma deref_setitem (h : heap) (r r' : loc) (k : string) (v : value) :
  deref (setitem h r k v) r' =
  if decide (r = r') then <[k := v]> (deref h r) else deref h r'.
Proof.
  unfold setitem, deref at 1.
  destruct (decide (r = r')) as [->|Hne].
  - by rewrite lookup_insert_eq.
  - by rewrite lookup_insert_ne.
Qed.

Lemma deref_setitem_eq (h : heap) (r : loc) (k : string) (v : value) :
  deref (setitem h r k v) r = <[k := v]> (deref h r).
Proof. rewrite deref_setitem. by destruct (decide (r = r)). Qed.

Lemma deref_setitem_ne (h : heap) (r r' : loc) (k : string) (v : value) :
  r ≠ r' -> deref (setitem h r k v) r' = deref h r'.
Proof. intros Hne. rewrite deref_setitem. by destruct (decide (r = r')). Qed.

(** Writing the time stamp does not change the channel an object goes to. *)
Lemma is_raw_setitem (h : heap) (r r' : loc) (v : value) :
  is_raw (setitem h r "timestamp" v) r' = is_raw h r'.
Proof.
  unfold is_raw, get. rewrite deref_setitem.
  destruct (decide (r = r')) as [->|Hne]; [|done].
  by rewrite lookup_insert_ne.
Qed.

(** ** [store_data], one call *)

Lemma objs_store_data (r : loc) (now : Q) (st : state) :
  objs (store_data r now st) = setitem (objs st) r "timestamp" (VFloat now).
Proof. unfold store_data. by destruct (is_raw _ r). Qed.

Lemma max_history_store_data (r : loc) (now : Q) (st : state) :
  _max_history (self (store_data r now st)) = _max_history (self st).
Proof. unfold store_data. by destruct (is_raw _ r). Qed.

Lemma channel_of_setitem (h : heap) (r r' : loc) (v : value) :
  channel_of (setitem h r "timestamp" v) r' = channel_of h r'.
Proof. unfold channel_of. by rewrite is_raw_setitem. Qed.

Lemma latest_ref_store_data (ch : channel) (r : loc) (now : Q) (st : state) :
  latest_ref ch (self (store_data r now st)) =
  if decide (channel_of (objs st) r = ch) then Some r
  else latest_ref ch (self st).
Proof.
  unfold store_data, channel_of. rewrite is_raw_setitem.
  by destruct (is_raw (objs st) r), ch.
Qed.

Lemma history_refs_store_data (ch : channel) (r : loc) (now : Q) (st : state) :
  history_refs ch (self (store_data r now st)) =
  if decide (channel_of (objs st) r = ch)
  then push (_max_history (self st)) (history_refs ch (self st)) r
  else history_refs ch (self st).
Proof.
  unfold store_data, channel_of. rewrite is_raw_setitem.
  by destruct (is_raw (objs st) r), ch.
Qed.

Lemma GetLatest_snapshot (ch : channel) (st : state) :
  GetLatest ch st = snapshot (objs st) (latest_ref ch (self st)).
Proof. by destruct ch. Qed.

Lemma GetHistory_refs (ch : channel) (st : state) :
  GetHistory ch st = history_refs ch (self st).
Proof. by destruct ch. Qed.

Lemma is_raw_store_data (r : loc) (now : Q) (st : state) (r' : loc) :
  is_raw (objs (store_data r now st)) r' = is_raw (objs st) r'.
Proof. by rewrite objs_store_data, is_raw_setitem. Qed.

(** ** Sequences of calls *)

Lemma run_snoc (calls : list call) (c : call) (st : state) :
  run (calls ++ [c]) st = store_data (fst c) (snd c) (run calls st).
Proof. unfold run. by rewrite foldl_app. Qed.

Lemma exec_snoc (ops : list op) (o : op) (st : state) :
  exec (ops ++ [o]) st = step (exec ops st) o.
Proof. unfold exec. by rewrite foldl_app. Qed.

Lemma is_raw_run (calls : list call) (st : state) (r : loc) :
  is_raw (objs (run calls st)) r = is_raw (objs st) r.
Proof.
  induction calls as [|c calls IH] using rev_ind; [done|].
  by rewrite run_snoc, is_raw_store_data.
Qed.

Lemma channel_of_run (calls : list call) (st : state) (r : loc) :
  channel_of (objs (run calls st)) r = channel_of (objs st) r.
Proof. unfold channel_of. by rewrite is_raw_run. Qed.

Lemma max_history_run (calls : list call) (st : state) :
  _max_history (self (run calls st)) = _max_history (self st).
Proof.
  induction calls as [|c calls IH] using rev_ind; [done|].
  by rewrite run_snoc, max_history_store_data.
Qed.

(** A later stamp on an object hides what the calls before did to it. *)
Lemma stamped_run (calls : list call) (st : state) (r : loc) (now : Q) :
  stamped now (deref (objs (run calls st)) r) = stamped now (deref (objs st) r).
Proof.
  induction calls as [|c calls IH] using rev_ind; [done|].
  rewrite run_snoc, objs_store_data, deref_setitem.
  destruct (decide (c.1 = r)) as [->|Hne]; [|done].
  unfold stamped in *. by rewrite insert_insert_eq.
Qed.

(** ** The latest value of a channel *)

Lemma latest_run (ch : channel) (calls : list call) (st : state) :
  match last (calls_to (objs st) ch calls) with
  | Some (r, now) =>
      latest_ref ch (self (run calls st)) = Some r /\
      GetLatest ch (run calls st) = deref (objs (run calls st)) r /\
      GetLatest ch (run calls st) = stamped now (deref (objs st) r)
  | None => latest_ref ch (self (run calls st)) = latest_ref ch (self st)
  end.
Proof.
  induction calls as [|[r now] calls IH] using rev_ind; [done|].
  unfold calls_to in *. rewrite filter_app, filter_cons, filter_nil.
  rewrite run_snoc, !GetLatest_snapshot, latest_ref_store_data, objs_store_data.
  cbn [fst snd]. rewrite channel_of_run.
  destruct (decide (channel_of (objs st) r = ch)) as [Hch|Hch].
  - rewrite last_snoc. cbn [snapshot]. rewrite deref_setitem_eq.
    split; [done|]. split; [done|]. apply (stamped_run calls st r now).
  - rewrite app_nil_r.
    destruct (last (filter _ calls)) as [[r' now']|] eqn:Hl; [|done].
    destruct IH as (Href & _ & Hval). rewrite GetLatest_snapshot in Hval.
    rewrite Href in *. cbn [snapshot] in *.
    assert (r ≠ r') as Hne.
    { intros ->. apply last_Some_elem_of, list_elem_of_filter in Hl as [Hl _].
      by cbn in Hl. }
    by rewrite deref_setitem_ne.
Qed.

(** The calls to a channel are those with the matching [raw_image]. *)
Lemma calls_to_raw (h : heap) (calls : list call) :
  calls_to h raw calls = filter (fun c => is_raw h (fst c) = true) calls.
Proof.
  apply list_filter_iff. intros [r now]. unfold channel_of. cbn.
  by destruct (is_raw h r).
Qed.

Lemma calls_to_processed (h : heap) (calls : list call) :
  calls_to h processed calls = filter (fun c => is_raw h (fst c) = false) calls.
Proof.
  apply list_filter_iff. intros [r now]. unfold channel_of. cbn.
  by destruct (is_raw h r).
Qed.

(** C3. After any sequence of [store_data] calls, each latest getter
    returns exactly the payload of the last call that went to its
    channel: [get_latest_raw_data] that of the last call whose payload had
    [raw_image] true, [get_latest_data] that of the last call whose
    payload had it false.  What is returned is that object as it is now,
    which is the dict the caller passed with the time stamp [store_data]
    wrote into it.  The capacity of the history plays no part: the
    sequence may be longer than it, and [_max_history] is any number.
    With no call to a channel its latest stays the object it was. *)
Theorem latest_is_last_stored (calls : list call) (st : state) :
  match last (filter (fun c => is_raw (objs st) (fst c) = true) calls) with
  | Some (r, now) =>
      get_latest_raw_data (run calls st) = deref (objs (run calls st)) r /\
      get_latest_raw_data (run calls st) = stamped now (deref (objs st) r)
  | None => _latest_raw_data (self (run calls st)) = _latest_raw_data (self st)
  end /\
  match last (filter (fun c => is_raw (objs st) (fst c) = false) calls) with
  | Some (r, now) =>
      get_latest_data (run calls st) = deref (objs (run calls st)) r /\
      get_latest_data (run calls st) = stamped now (deref (objs st) r)
  | None => _latest_data (self (run calls st)) = _latest_data (self st)
  end.
Proof.
  pose proof (latest_run raw calls st) as Hr.
  pose proof (latest_run processed calls st) as Hp.
  rewrite calls_to_raw in Hr. rewrite calls_to_processed in Hp. split.
  - clear Hp. destruct (last _) as [[r now]|]; [|exact Hr].
    by destruct Hr as (_ & ? & ?).
  - clear Hr. destruct (last _) as [[r now]|]; [|exact Hp].
    by destruct Hp as (_ & ? & ?).
Qed.

(** ** The bounded history *)

Lemma push_spec (max : nat) (hist : list loc) (r : loc) :
  length hist <= max ->
  push max hist r = drop (length hist + 1 - max) (hist ++ [r]).
Proof.
  intros Hlen. unfold push, pop0. rewrite length_app. cbn [length].
  destruct (Nat.ltb_spec max (length hist + 1)) as [Hlt|Hge].
  - replace (length hist + 1 - max) with 1 by lia. by destruct (hist ++ [r]).
  - by replace (length hist + 1 - max) with 0 by lia.
Qed.

Lemma push_length (max : nat) (hist : list loc) (r : loc) :
  length hist <= max -> length (push max hist r) <= max.
Proof.
  intros Hlen. rewrite push_spec by done.
  rewrite length_drop, length_app. cbn [length]. lia.
Qed.

(** Pushing onto the last [max] of [l] keeps the last [max] of [l ++ [r]]. *)
Lemma push_drop (max : nat) (l : list loc) (r : loc) :
  push max (drop (length l - max) l) r =
  drop (length (l ++ [r]) - max) (l ++ [r]).
Proof.
  rewrite push_spec by (rewrite length_drop; lia).
  rewrite length_drop, length_app. cbn [length].
  destruct (le_lt_dec (length l) max) as [Hle|Hgt].
  - replace (length l - max) with 0 by lia. rewrite drop_0.
    by replace (length l - 0 + 1 - max) with (length l + 1 - max) by lia.
  - replace (length l - (length l - max) + 1 - max) with 1 by lia.
    replace (length l + 1 - max) with ((length l - max) + 1) by lia.
    rewrite <- drop_drop. f_equal.
    rewrite drop_app_le by lia. done.
Qed.

Lemma history_run (ch : channel) (calls : list call) (st : state) :
  let max := _max_history (self st) in
  let l := history_refs ch (self st) ++ (fst <$> calls_to (objs st) ch calls) in
  length (history_refs ch (self st)) <= max ->
  history_refs ch (self (run calls st)) = drop (length l - max) l.
Proof.
  intros max l Hlen. subst l.
  induction calls as [|[r now] calls IH] using rev_ind.
  - cbn. rewrite app_nil_r. replace (_ - max) with 0 by lia. done.
  - unfold calls_to in *. rewrite filter_app, filter_cons, filter_nil.
    rewrite run_snoc, history_refs_store_data. cbn [fst snd].
    rewrite channel_of_run, max_history_run. fold max.
    destruct (decide (channel_of (objs st) r = ch)) as [Hch|Hch].
    + rewrite IH, fmap_app, app_assoc. cbn [fmap list_fmap fst]. apply push_drop.
    + by rewrite app_nil_r.
Qed.

Lemma history_bound_exec (ch : channel) (ops : list op) (st : state) :
  length (history_refs ch (self st)) <= _max_history (self st) ->
  _max_history (self (exec ops st)) = _max_history (self st) /\
  length (history_refs ch (self (exec ops st))) <= _max_history (self st).
Proof.
  intros Hlen.
  induction ops as [|o ops [IHmax IHlen]] using rev_ind; [done|].
  rewrite exec_snoc. destruct o as [r now|]; cbn [step].
  - rewrite max_history_store_data, history_refs_store_data, IHmax.
    split; [done|]. case_decide; [|done]. by apply push_length.
  - split; [done|]. destruct ch; cbn; lia.
Qed.

(** C4. From start-up on, a channel's history never holds more than 100
    entries, whatever [store_data] and [clear_data] calls are made.  After
    a sequence of [store_data] calls it is the last 100 of the objects
    that arrived on the channel, in arrival order: the oldest are evicted
    first.  When 101 payloads have arrived on a channel, its history has
    100 entries, the first is payload #2 and the latest getter returns
    payload #101. *)
Theorem history_bounded_fifo (h : heap) (ch : channel) :
  (forall ops : list op, length (GetHistory ch (exec ops (boot h))) <= 100) /\
  (forall calls : list call,
     let st := run calls (boot h) in
     let arrivals := fst <$> calls_to h ch calls in
     GetHistory ch st = drop (length arrivals - 100) arrivals /\
     (length arrivals = 101 ->
      length (GetHistory ch st) = 100 /\
      head (GetHistory ch st) = arrivals !! 1 /\
      GetLatest ch st = snapshot (objs st) (arrivals !! 100))).
Proof.
  split.
  - intros ops. rewrite GetHistory_refs.
    apply (history_bound_exec ch ops (boot h)). destruct ch; cbn; lia.
  - intros calls st arrivals.
    assert (Hhist : GetHistory ch st = drop (length arrivals - 100) arrivals).
    { rewrite GetHistory_refs. subst st arrivals.
      rewrite (history_run ch calls (boot h)) by (destruct ch; cbn; lia).
      by destruct ch. }
    split; [done|]. intros Hlen. rewrite Hhist, Hlen.
    replace (101 - 100) with 1 by lia.
    split; [rewrite length_drop; lia|].
    split; [by rewrite head_lookup, lookup_drop|].
    pose proof (latest_run ch calls (boot h)) as Hlast. cbn [boot objs] in Hlast.
    subst arrivals. rewrite list_lookup_fmap.
    rewrite length_fmap in Hlen.
    rewrite last_lookup, Hlen in Hlast. cbn [Nat.pred] in Hlast.
    destruct (calls_to h ch calls !! 100) as [[r now]|] eqn:Hl.
    + subst st. by destruct Hlast as (_ & -> & _).
    + apply lookup_ge_None in Hl. lia.
Qed.

(** The scenario run: the payloads #1 to #101, all processed. *)
Lemma history_bounded_fifo_witness :
  let st := run Scenario.calls101 (boot Scenario.heap101) in
  let arrivals := fst <$> calls_to Scenario.heap101 processed Scenario.calls101 in
  length arrivals = 101 /\
  length (get_history st) = 100 /\
  head (get_history st) = Some 2 /\
  get_latest_data st = snapshot (objs st) (Some 101).
Proof.
  intros st arrivals.
  assert (Hlen : length arrivals = 101) by (vm_compute; reflexivity).
  split; [exact Hlen|].
  destruct (history_bounded_fifo Scenario.heap101 processed) as [_ Hcalls].
  destruct (Hcalls Scenario.calls101) as [_ Hscen].
  exact (Hscen Hlen).
Defined.

(** ** The time stamp *)

(** C5, on the code: a payload that carries a time stamp does not keep it.
    The sender's payload of 2025-01-01 12:00:00, stored when the clock
    reads 1700000000, comes back with the clock reading. *)
Lemma timestamp_is_replaced :
  let st := boot {[ 1 := Scenario.sent ]} in
  let st' := store_data 1 (inject_Z 1700000000) st in
  get_latest_data st' = deref (objs st') 1 /\
  deref (objs st) 1 !! "timestamp" = Some (VStr "20250101_120000") /\
  get_latest_data st' !! "timestamp" = Some (VFloat (inject_Z 1700000000)) /\
  get_latest_data st' !! "timestamp" <> deref (objs st) 1 !! "timestamp".
Proof.
  cbv zeta. repeat split; try (vm_compute; reflexivity).
  vm_compute. discriminate.
Qed.

(** C5, as the code has it: [store_data] writes the receipt time into
    every payload, over a time stamp the payload already carries; it
    changes no other key of the payload and no other object. *)
Theorem store_data_stamps (r : loc) (now : Q) (st : state) :
  let st' := store_data r now st in
  deref (objs st') r = stamped now (deref (objs st) r) /\
  deref (objs st') r !! "timestamp" = Some (VFloat now) /\
  delete "timestamp" (deref (objs st') r) = delete "timestamp" (deref (objs st) r) /\
  delete r (objs st') = delete r (objs st).
Proof.
  cbv zeta. rewrite objs_store_data, deref_setitem_eq. unfold stamped.
  split; [done|]. split; [by rewrite lookup_insert_eq|].
  split; [by rewrite delete_insert_eq|].
  unfold setitem. by rewrite delete_insert_eq.
Qed.

(** ** The two channels do not meet *)

Lemma elem_of_push (max : nat) (hist : list loc) (r x : loc) :
  x ∈ push max hist r -> x ∈ hist \/ x = r.
Proof.
  unfold push, pop0. intros Hx.
  assert (x ∈ hist ++ [r]) as Hin.
  { destruct (Nat.ltb max _); [|done].
    destruct (hist ++ [r]) as [|y l]; [done|]. cbn in Hx.
    by apply elem_of_cons; right. }
  apply elem_of_app in Hin as [?|Hin]; [by left|].
  right. by apply list_elem_of_singleton in Hin.
Qed.

Lemma consistent_boot (h : heap) : consistent (boot h).
Proof.
  intros ch r [Hl|Hh]; destruct ch; cbn in *; try done; by apply elem_of_nil in Hh.
Qed.

Lemma consistent_step (st : state) (o : op) :
  consistent st -> consistent (step st o).
Proof.
  intros Hc. destruct o as [r now|]; cbn [step].
  - intros ch x. unfold holds.
    rewrite latest_ref_store_data, history_refs_store_data.
    rewrite objs_store_data, channel_of_setitem.
    destruct (decide (channel_of (objs st) r = ch)) as [Hch|Hch].
    + intros [[= <-]|Hx]; [done|].
      apply elem_of_push in Hx as [Hx| ->]; [|done].
      apply Hc. by right.
    + intros Hx. by apply Hc.
  - intros ch x [Hl|Hh]; destruct ch; cbn in *; try done; by apply elem_of_nil in Hh.
Qed.

Lemma consistent_exec (ops : list op) (h : heap) : consistent (exec ops (boot h)).
Proof.
  induction ops as [|o ops IH] using rev_ind; [apply consistent_boot|].
  rewrite exec_snoc. by apply consistent_step.
Qed.

(** A call that goes to one channel leaves what the other shows as it was. *)
Lemma store_data_frame (ch : channel) (r : loc) (now : Q) (st : state) :
  consistent st ->
  channel_of (objs st) r <> ch ->
  GetLatest ch (store_data r now st) = GetLatest ch st /\
  GetHistory ch (store_data r now st) = GetHistory ch st /\
  contents (objs (store_data r now st)) (GetHistory ch (store_data r now st)) =
  contents (objs st) (GetHistory ch st).
Proof.
  intros Hc Hch.
  rewrite !GetLatest_snapshot, !GetHistory_refs.
  rewrite latest_ref_store_data, history_refs_store_data, objs_store_data.
  destruct (decide (channel_of (objs st) r = ch)); [done|].
  assert (Hother : forall x, holds ch (self st) x ->
            deref (setitem (objs st) r "timestamp" (VFloat now)) x = deref (objs st) x).
  { intros x Hx. apply deref_setitem_ne. intros ->. by apply Hc in Hx. }
  split; [|split; [done|]].
  - destruct (latest_ref ch (self st)) as [x|] eqn:Hl; [|done].
    cbn [snapshot]. apply Hother. by left.
  - unfold contents. apply list_fmap_ext. intros i x Hx.
    apply Hother. right. by eapply list_elem_of_lookup_2.
Qed.

(** C6. In every state the store reaches from start-up by its own
    methods, a [store_data] call whose payload has [raw_image] true leaves
    what the processed channel shows as it was, the latest dict, the
    history and the dicts in the history; a call whose payload has
    [raw_image] false leaves what the raw channel shows as it was. *)
Theorem store_leaves_other_channel (h : heap) (ops : list op) (r : loc) (now : Q) :
  let st := exec ops (boot h) in
  let st' := store_data r now st in
  if is_raw (objs st) r
  then get_latest_data st' = get_latest_data st /\
       get_history st' = get_history st /\
       contents (objs st') (get_history st') = contents (objs st) (get_history st)
  else get_latest_raw_data st' = get_latest_raw_data st /\
       get_raw_history st' = get_raw_history st /\
       contents (objs st') (get_raw_history st') =
       contents (objs st) (get_raw_history st).
Proof.
  intros st st'. pose proof (consistent_exec ops h) as Hc. fold st in Hc.
  destruct (is_raw (objs st) r) eqn:Hr.
  - apply (store_data_frame processed r now st Hc).
    unfold channel_of. by rewrite Hr.
  - apply (store_data_frame raw r now st Hc).
    unfold channel_of. by rewrite Hr.
Qed.

(** [store_leaves_other_channel] speaks of the states the store reaches
    by its own methods, and needs to.  The store keeps the caller's
    object, not a copy: when the owner of a stored payload changes its
    [raw_image] and stores the same object again, the time stamp written
    for the raw channel shows in the processed channel too.  No caller in
    the sources does so: [receive_data] stores the dict it has just
    decoded. *)
Remark shared_object_is_restamped :
  let st := Scenario.reflagged in
  let st' := store_data 1 (inject_Z 1700000060) st in
  is_raw (objs st) 1 = true /\
  get_history st' = get_history st /\
  get_latest_data st !! "timestamp" = Some (VFloat (inject_Z 1700000000)) /\
  get_latest_data st' !! "timestamp" = Some (VFloat (inject_Z 1700000060)).
Proof. cbv zeta. repeat split; vm_compute; reflexivity. Qed.

(** C7. After [clear_data] both latest getters return the empty dict and
    both histories are empty, in whatever state it is called; clearing
    twice gives the state clearing once gives. *)
Theorem clear_data_empties (st : state) :
  get_latest_data (clear_data st) = ∅ /\
  get_latest_raw_data (clear_data st) = ∅ /\
  get_history (clear_data st) = [] /\
  get_raw_history (clear_data st) = [] /\
  clear_data (clear_data st) = clear_data st.
Proof. repeat split. Qed.

(** ** [receive_data] *)

Import Flask.

(** A request that is not JSON is turned away and nothing changes. *)
Lemma receive_data_not_json (srv : FlaskServer) (req : request) (now : Q)
    (w : world) :
  is_json req = false -> receive_data srv req now w = (Rejected415, w).
Proof. intros Hj. unfold receive_data, receive_data_try. by rewrite Hj. Qed.

(** A JSON object goes through [store_data], whatever its keys. *)
Lemma receive_data_dict (srv : FlaskServer) (d : dict) (now : Q) (w : world)
    (ds : DataStorage) :
  data_store w = Some ds ->
  let r := fresh (dom (w_objs w)) in
  let st' := store_data r now {| objs := <[r := d]> (w_objs w); self := ds |} in
  receive_data srv {| is_json := true; get_json := inr (VDict d) |} now w =
  (answer srv (stamped now d),
   {| w_objs := objs st'; data_store := Some (self st') |}).
Proof.
  intros Hds r st'.
  assert (Hd : deref (objs st') r = stamped now d).
  { subst st'. rewrite objs_store_data, deref_setitem_eq. cbn [objs].
    unfold deref. by rewrite lookup_insert_eq. }
  unfold receive_data, receive_data_try. cbn [is_json get_json negb].
  unfold mbind, handler_bind, bind, lift, new_object, store, send_ble,
    received_count, mret, handler_ret, ret, answer.
  cbn [data_store w_objs]. rewrite Hds. fold r. fold st'. cbn [read w_objs].
  rewrite Hd.
  destruct (ble_handler srv) as [send_data|].
  - destruct (send_data _); [done|]. cbn [w_objs]. rewrite Hd.
    by destruct (len _).
  - cbn [w_objs]. rewrite Hd. by destruct (len _).
Qed.

(** The reply is built after [send_data] has returned: when it raises,
    the reply is the error, and the payload is stored all the same. *)
Lemma receive_data_reply_follows_ble (send_data : BLEHandler) (d : dict)
    (now : Q) (w : world) (ds : DataStorage) :
  let srv := {| ble_handler := Some send_data |} in
  let req := {| is_json := true; get_json := inr (VDict d) |} in
  let r := fresh (dom (w_objs w)) in
  let st' := store_data r now {| objs := <[r := d]> (w_objs w); self := ds |} in
  receive_data srv req now {| w_objs := w_objs w; data_store := Some ds |} =
  (match send_data (VDict (stamped now d)) with
   | Some e => Error500 e
   | None =>
       match len (get (stamped now d) "detections" (VList [])) with
       | Some n => Success200 n
       | None => Error500 TypeError
       end
   end,
   {| w_objs := objs st'; data_store := Some (self st') |}).
Proof.
  cbv zeta.
  by rewrite (receive_data_dict _ d now
                {| w_objs := w_objs w; data_store := Some ds |} ds).
Qed.

(** C1, on the code: a submission without the image field is accepted.
    On a fresh store, with no BLE handler, the object
    [{"detections": []}] is answered with status success and becomes the
    processed channel's latest and its first history entry. *)
Lemma missing_image_is_stored :
  let req := {| is_json := true; get_json := inr (VDict Scenario.no_image) |} in
  let srv := {| ble_handler := None |} in
  let w := {| w_objs := ∅; data_store := Some init |} in
  let now := inject_Z 1700000000 in
  Scenario.no_image !! "image" = None /\
  fst (receive_data srv req now w) = Success200 0 /\
  latest w = Some ∅ /\
  latest (snd (receive_data srv req now w)) = Some (stamped now Scenario.no_image) /\
  latest (snd (receive_data srv req now w)) <> latest w /\
  get_history <$> view w = Some [] /\
  get_history <$> view (snd (receive_data srv req now w)) = Some [0].
Proof.
  cbv zeta. repeat split; try (vm_compute; reflexivity).
  vm_compute. discriminate.
Qed.

(** C1, as the code has it: a JSON object without the image field is
    not rejected.  [receive_data] hands it to [store_data] like any other
    payload: the channel its [raw_image] selects gets it, time-stamped, as
    its latest and as the newest entry of its history.  The answer is
    status success with the number of detections, or an error 500 when
    the BLE hand-over or [len] of the detections raises; it is never the
    rejection, and the change stays in either case. *)
Theorem receive_data_without_image (srv : FlaskServer) (d : dict) (now : Q)
    (w : world) (ds : DataStorage) :
  d !! "image" = None ->
  data_store w = Some ds ->
  let req := {| is_json := true; get_json := inr (VDict d) |} in
  let r := fresh (dom (w_objs w)) in
  let st' := store_data r now {| objs := <[r := d]> (w_objs w); self := ds |} in
  let ch := if truthy (get d "raw_image" (VBool false)) then raw else processed in
  snd (receive_data srv req now w) =
    {| w_objs := objs st'; data_store := Some (self st') |} /\
  fst (receive_data srv req now w) = answer srv (stamped now d) /\
  fst (receive_data srv req now w) <> Rejected415 /\
  GetLatest ch st' = stamped now d /\
  GetHistory ch st' = push (_max_history ds) (history_refs ch ds) r.
Proof.
  intros _ Hds req r st' ch. subst req.
  rewrite (receive_data_dict srv d now w ds Hds). fold r. fold st'. cbn [fst snd].
  split; [done|]. split; [done|]. split.
  { unfold answer. destruct (ble_handler srv) as [send_data|];
      [destruct (send_data _)|]; try done; by destruct (len _). }
  set (st := {| objs := <[r := d]> (w_objs w); self := ds |}) in *.
  assert (Hd : deref (objs st) r = d).
  { unfold deref, st. cbn [objs]. by rewrite lookup_insert_eq. }
  assert (Hch : channel_of (objs st) r = ch).
  { unfold channel_of, is_raw. by rewrite Hd. }
  rewrite GetLatest_snapshot, GetHistory_refs. subst st'.
  rewrite latest_ref_store_data, history_refs_store_data, objs_store_data.
  destruct (decide (channel_of (objs st) r = ch)); [|done].
  cbn [snapshot]. rewrite deref_setitem_eq, Hd. done.
Qed.

Lemma receive_data_without_image_witness :
  let srv := {| ble_handler := None |} in
  let w := {| w_objs := ∅; data_store := Some init |} in
  let now := inject_Z 1700000000 in
  let req := {| is_json := true; get_json := inr (VDict Scenario.no_image) |} in
  Scenario.no_image !! "image" = None /\
  data_store w = Some init /\
  fst (receive_data srv req now w) = answer srv (stamped now Scenario.no_image) /\
  fst (receive_data srv req now w) <> Rejected415.
Proof.
  intros srv w now req.
  assert (H1 : Scenario.no_image !! "image" = None) by (vm_compute; reflexivity).
  assert (H2 : data_store w = Some init) by reflexivity.
  split; [exact H1|]. split; [exact H2|].
  destruct (receive_data_without_image srv Scenario.no_image now w init H1 H2)
    as (_ & Ha & Hn & _).
  split; [exact Ha | exact Hn].
Defined.

(** ** The sender *)

Import Sender.

(** C9. An iteration of the loop in raw mode runs the detector on no
    frame; it posts one payload when a frame was captured and none
    otherwise; every payload it posts has the empty detection list and
    [raw_image] true.  [send_image_data] called with [is_raw] true posts
    the empty list whatever detections it is given. *)
Theorem raw_mode_sends_no_detections
    (rnd : Q -> Q) (encode_image_to_base64 : image -> string)
    (get_cropped_image : option image -> option image)
    (names : gmap Z string) (model : image -> list box)
    (frame : option image) (stamp : string) :
  let evs := iteration rnd encode_image_to_base64 get_cropped_image names model
               true frame stamp in
  detector_calls evs = [] /\
  posts evs =
    match frame with
    | Some f => [send_image_data encode_image_to_base64 f [] true stamp]
    | None => []
    end /\
  Forall (fun p => p !! "detections" = Some (VList []) /\
                   p !! "raw_image" = Some (VBool true)) (posts evs) /\
  (forall (img : image) (dets : list dict),
     let p := send_image_data encode_image_to_base64 img dets true stamp in
     p !! "detections" = Some (VList []) /\ p !! "raw_image" = Some (VBool true)).
Proof.
  assert (Hsend : forall (img : image) (dets : list dict),
     let p := send_image_data encode_image_to_base64 img dets true stamp in
     p !! "detections" = Some (VList []) /\ p !! "raw_image" = Some (VBool true)).
  { intros img dets p. subst p. unfold send_image_data. cbn [negb].
    split; by simplify_map_eq. }
  cbv zeta. unfold iteration.
  destruct frame as [f|]; cbn; (split; [done|]); (split; [done|]); (split; [|done]).
  - constructor; [apply Hsend|constructor].
  - constructor.
Qed.

Lemma collect_filter (rnd : Q -> Q) (names : gmap Z string) (h : Z)
    (boxes : list box) :
  collect rnd names h boxes =
  (fun b => detection rnd names h (trunc (cls b)) b)
    <$> filter (fun b => trunc (cls b) ∈ ids names) boxes.
Proof.
  induction boxes as [|b boxes IH]; [done|].
  cbn [collect]. rewrite filter_cons.
  destruct (decide (trunc (cls b) ∈ ids names)) as [Hin|Hout].
  - rewrite bool_decide_eq_true_2 by done. cbn. by rewrite IH.
  - by rewrite bool_decide_eq_false_2.
Qed.

(** C8. An iteration in processed mode posts, for every box of a class of
    interest, a detection whose centre has the y coordinate
    [frameHeight - y], where [y] is the midpoint [(y1 + y2) / 2] of the
    box and [frameHeight] the height of the posted frame, the second
    entry of its [crop_shape].  The subtraction is the float one: the
    exact difference, rounded once to the float format, with no further
    rounding or truncation. *)
Theorem flip_is_exact
    (rnd : Q -> Q) (encode_image_to_base64 : image -> string)
    (get_cropped_image : option image -> option image)
    (names : gmap Z string) (model : image -> list box)
    (frame : option image) (stamp : string) :
  let evs := iteration rnd encode_image_to_base64 get_cropped_image names model
               false frame stamp in
  let sent (frameHeight : Z) (b : box) : dict :=
    let y := rnd (rnd (y1 b + y2 b) / 2)%Q in
    {[ "class" := VStr (default "" (names !! trunc (cls b)));
       "confidence" := VFloat (conf b);
       "center_px" := VList [VFloat (rnd (rnd (x1 b + x2 b) / 2)%Q);
                             VFloat (rnd (inject_Z frameHeight - y)%Q)] ]} in
  match get_cropped_image frame with
  | None => posts evs = []
  | Some cropped =>
      let frameHeight := shape0 cropped in
      let kept := filter (fun b => trunc (cls b) ∈ ids names) (model cropped) in
      exists p : dict,
        posts evs = [p] /\
        p !! "raw_image" = Some (VBool false) /\
        p !! "crop_shape" = Some (VList [VInt (shape1 cropped); VInt frameHeight]) /\
        p !! "detections" = Some (VList (VDict <$> (sent frameHeight <$> kept)))
  end.
Proof.
  cbv zeta. unfold iteration.
  destruct (get_cropped_image frame) as [cropped|]; [|done].
  eexists. split; [reflexivity|].
  unfold send_image_data. cbn [negb].
  split; [by simplify_map_eq|]. split; [by simplify_map_eq|].
  rewrite collect_filter. by simplify_map_eq.
Qed.

(** ** Truncation and rounding *)

Local Open Scope Q_scope.

Lemma rounding_proper (rnd : Q -> Q) :
  rounding rnd -> forall x y : Q, x == y -> rnd x == rnd y.
Proof.
  intros [Hmono _] x y Hxy. apply Qle_antisym; apply Hmono; rewrite Hxy; apply Qle_refl.
Qed.

Lemma trunc_nonneg (q : Q) : 0 <= q -> trunc q = Qfloor q.
Proof.
  intros Hq. unfold trunc.
  destruct (Qle_bool 0 q) eqn:Hb; [done|].
  apply Qle_bool_iff in Hq. congruence.
Qed.

Lemma trunc_nonpos (q : Q) : q <= 0 -> trunc q = Qceiling q.
Proof.
  intros Hq. unfold trunc.
  destruct (Qle_bool 0 q) eqn:Hb; [|done].
  apply Qle_bool_iff in Hb.
  assert (q == 0) as Hz by (by apply Qle_antisym).
  assert (Qfloor q = 0%Z) as ->.
  { apply Z.le_antisymm.
    - change 0%Z with (Qfloor 0). apply Qfloor_resp_le. by rewrite Hz.
    - change 0%Z with (Qfloor 0). apply Qfloor_resp_le. by rewrite Hz. }
  symmetry. apply Z.le_antisymm.
  - change 0%Z with (Qceiling 0). apply Qceiling_resp_le. by rewrite Hz.
  - change 0%Z with (Qceiling 0). apply Qceiling_resp_le. by rewrite Hz.
Qed.

Lemma trunc_Z (n : Z) : trunc (inject_Z n) = n.
Proof.
  unfold trunc. destruct (Qle_bool 0 (inject_Z n)); [apply Qfloor_Z|apply Qceiling_Z].
Qed.

Lemma inject_Z_pred (m : Z) : inject_Z (m - 1) == inject_Z m - 1.
Proof. unfold Z.sub. rewrite inject_Z_plus, inject_Z_opp. reflexivity. Qed.

Lemma inject_Z_succ (m : Z) : inject_Z (m + 1) == inject_Z m + 1.
Proof. rewrite inject_Z_plus. reflexivity. Qed.

(** [int] after one rounding is less than one away from the exact value. *)
Lemma trunc_rnd_close (rnd : Q -> Q) (e : Q) :
  rounding rnd ->
  - inject_Z (2 ^ 53 - 1) <= e <= inject_Z (2 ^ 53 - 1) ->
  e - 1 < inject_Z (trunc (rnd e)) < e + 1.
Proof.
  intros Hr [Hlo Hhi]. pose proof (rounding_proper rnd Hr) as Hproper.
  destruct Hr as [Hmono Hint].
  destruct (Qlt_le_dec e 0) as [Hneg|Hpos].
  - (* e < 0: between ceiling - 1 and ceiling *)
    set (m := Qceiling e).
    pose proof (Qle_ceiling e) as Hle. pose proof (Qceiling_lt e) as Hlt. fold m in Hle, Hlt.
    assert (m <= 0)%Z as Hm0.
    { change 0%Z with (Qceiling 0). apply Qceiling_resp_le. by apply Qlt_le_weak. }
    assert (- (2 ^ 53 - 1) <= m)%Z as Hmlo.
    { rewrite Zle_Qle. rewrite inject_Z_opp. by apply Qle_trans with e. }
    assert (rnd e <= inject_Z m) as Hup.
    { rewrite <- (Hint m) by lia. by apply Hmono. }
    assert (inject_Z (m - 1) <= rnd e) as Hdown.
    { rewrite <- (Hint (m - 1)%Z) by lia. apply Hmono. by apply Qlt_le_weak. }
    assert (rnd e <= 0) as Hr0.
    { apply Qle_trans with (inject_Z m); [done|].
      change 0 with (inject_Z 0). by rewrite <- Zle_Qle. }
    rewrite trunc_nonpos by done.
    assert (m - 1 <= Qceiling (rnd e) <= m)%Z as [Hc1 Hc2].
    { split.
      - rewrite <- (Qceiling_Z (m - 1)). by apply Qceiling_resp_le.
      - rewrite <- (Qceiling_Z m). by apply Qceiling_resp_le. }
    pose proof (inject_Z_pred m) as Hm1.
    destruct (Z.eq_dec (Qceiling (rnd e)) m) as [->|Hne].
    + lra.
    + assert (Qceiling (rnd e) = (m - 1)%Z) as -> by lia.
      assert (e < inject_Z m) as Hstrict.
      { apply Qle_lteq in Hle as [?|Heq]; [done|]. exfalso. apply Hne.
        rewrite (Qceiling_comp _ _ (Hproper _ _ Heq)).
        rewrite (Qceiling_comp _ _ (Hint m ltac:(lia))). apply Qceiling_Z. }
      lra.
  - (* 0 <= e: between floor and floor + 1 *)
    set (n := Qfloor e).
    pose proof (Qfloor_le e) as Hle. pose proof (Qlt_floor e) as Hlt. fold n in Hle, Hlt.
    assert (0 <= n)%Z as Hn0.
    { change 0%Z with (Qfloor 0). by apply Qfloor_resp_le. }
    assert (n <= 2 ^ 53 - 1)%Z as Hnhi.
    { rewrite Zle_Qle. by apply Qle_trans with e. }
    assert (inject_Z n <= rnd e) as Hdown.
    { rewrite <- (Hint n) by lia. by apply Hmono. }
    assert (rnd e <= inject_Z (n + 1)) as Hup.
    { rewrite <- (Hint (n + 1)%Z) by lia. apply Hmono. by apply Qlt_le_weak. }
    assert (0 <= rnd e) as Hr0.
    { apply Qle_trans with (inject_Z n); [|done].
      change 0 with (inject_Z 0). by rewrite <- Zle_Qle. }
    rewrite trunc_nonneg by done.
    assert (n <= Qfloor (rnd e) <= n + 1)%Z as [Hc1 Hc2].
    { split.
      - rewrite <- (Qfloor_Z n). by apply Qfloor_resp_le.
      - rewrite <- (Qfloor_Z (n + 1)). by apply Qfloor_resp_le. }
    pose proof (inject_Z_succ n) as Hn1.
    destruct (Z.eq_dec (Qfloor (rnd e)) n) as [->|Hne].
    + lra.
    + assert (Qfloor (rnd e) = (n + 1)%Z) as -> by lia.
      assert (inject_Z n < e) as Hstrict.
      { apply Qle_lteq in Hle as [?|Heq]; [done|]. exfalso. apply Hne.
        rewrite <- (Qfloor_comp _ _ (Hproper _ _ Heq)).
        rewrite (Qfloor_comp _ _ (Hint n ltac:(lia))). apply Qfloor_Z. }
      lra.
Qed.

(** When the exact value is an integer, nothing is lost. *)
Lemma trunc_rnd_Z (rnd : Q -> Q) (e : Q) (n : Z) :
  rounding rnd -> (Z.abs n <= 2 ^ 53)%Z -> e == inject_Z n ->
  trunc (rnd e) = n.
Proof.
  intros Hr Hn He. pose proof (rounding_proper rnd Hr _ _ He) as Hre.
  destruct Hr as [_ Hint]. rewrite (Hint n Hn) in Hre.
  unfold trunc. rewrite (Qfloor_comp _ _ Hre), (Qceiling_comp _ _ Hre).
  destruct (Qle_bool 0 (rnd e)); [apply Qfloor_Z|apply Qceiling_Z].
Qed.

(** The grid rounding is a rounding. *)
Lemma rnd_grid_rounding : rounding rnd_grid.
Proof.
  split.
  - intros x y Hxy. unfold rnd_grid, Qle. cbn [Qnum Qden].
    apply Z.mul_le_mono_nonneg_r; [done|].
    apply Qfloor_resp_le. lra.
  - intros n _. unfold rnd_grid.
    assert (Qfloor (inject_Z n * 1024 + (1 # 2)) = (n * 1024)%Z) as ->.
    { apply Z.le_antisymm.
      - apply Z.lt_succ_r. rewrite Zlt_Qlt.
        eapply Qle_lt_trans; [apply Qfloor_le|].
        rewrite <- Z.add_1_r, inject_Z_plus, inject_Z_mult.
        change (inject_Z 1024) with 1024. change (inject_Z 1) with 1. lra.
      - rewrite <- (Qfloor_Z (n * 1024)). apply Qfloor_resp_le.
        rewrite inject_Z_mult. change (inject_Z 1024) with 1024. lra. }
    unfold Qeq, inject_Z. cbn [Qnum Qden]. lia.
Qed.

(** ** The monitor *)

Import Monitor.

Lemma draw_one_center (str : value -> string) (format_2f : Q -> string)
    (rows : Z) (det : dict) (vx vy : value) (x y : Z) (text : string) :
  det !! "center_px" = Some (VList [vx; vy]) ->
  int vx = Some x -> int vy = Some y ->
  label str format_2f det = Some text ->
  draw_one str format_2f rows det =
  Some [Circle (x, (rows - y)%Z) 5; PutText text ((x + 10)%Z, (rows - y)%Z)].
Proof.
  intros Hc Hx Hy Hl. unfold draw_one, unpack_center. by rewrite Hc, Hx, Hy, Hl.
Qed.

Lemma draw_detections_cons (str : value -> string) (format_2f : Q -> string)
    (rows : Z) (det : dict) (rest : list dict) (ops ops' : list draw) :
  draw_one str format_2f rows det = Some ops ->
  draw_detections str format_2f rows rest = Some ops' ->
  draw_detections str format_2f rows (det :: rest) = Some (ops ++ ops').
Proof. intros H1 H2. cbn [draw_detections]. by rewrite H1, H2. Qed.

(** C10. [draw_detections] undoes the sender's flip.  A detection whose
    transmitted centre is [(tx, ty)] is plotted at row
    [img.shape[0] - int(ty)].  For the detections the sender builds from
    the boxes of a frame [rows] high, drawn on an image of the same
    height, the plotted row is less than one pixel away from the
    detector's centre [y], and is [y] itself when [y] is a whole number:
    the two flips cancel up to the truncation [int] makes. *)
Theorem draw_inverts_flip (rnd : Q -> Q)
    (str : value -> string) (format_2f : Q -> string)
    (names : gmap Z string) (rows : Z) (boxes : list box) :
  rounding rnd ->
  Forall (fun b => in_range rows (midpoint rnd (y1 b) (y2 b))) boxes ->
  let y b := midpoint rnd (y1 b) (y2 b) in
  let y' b := fsub rnd (inject_Z rows) (y b) in
  let row b := (rows - trunc (y' b))%Z in
  let plot b :=
    let x := trunc (midpoint rnd (x1 b) (x2 b)) in
    let class := VStr (default "" (names !! trunc (cls b))) in
    [Circle (x, row b) 5;
     PutText (str class +:+ " (" +:+ format_2f (conf b) +:+ ")")
             ((x + 10)%Z, row b)] in
  let kept := filter (fun b => trunc (cls b) ∈ ids names) boxes in
  draw_detections str format_2f rows (collect rnd names rows boxes) =
    Some (mjoin (plot <$> kept)) /\
  Forall (fun b => y b - 1 < inject_Z (row b) < y b + 1) boxes /\
  Forall (fun b => forall n : Z, y b == inject_Z n -> row b = n) boxes /\
  (forall (det : dict) (tx ty : Q) (text : string),
     det !! "center_px" = Some (VList [VFloat tx; VFloat ty]) ->
     label str format_2f det = Some text ->
     draw_one str format_2f rows det =
     Some [Circle (trunc tx, (rows - trunc ty)%Z) 5;
           PutText text ((trunc tx + 10)%Z, (rows - trunc ty)%Z)]).
Proof.
  intros Hr Hrange y y' row plot kept. split; [|split; [|split]].
  - subst kept. clear Hrange.
    induction boxes as [|b boxes IH]; [done|].
    cbn [collect]. rewrite filter_cons.
    destruct (decide (trunc (cls b) ∈ ids names)) as [Hin|Hout].
    + rewrite bool_decide_eq_true_2 by done.
      cbn [fmap list_fmap mjoin list_join].
      apply draw_detections_cons; [|exact IH].
      unfold detection.
      eapply draw_one_center; [by simplify_map_eq|reflexivity|reflexivity|].
      unfold label, get. by simplify_map_eq.
    + by rewrite bool_decide_eq_false_2.
  - eapply Forall_impl; [exact Hrange|]. intros b Hb. cbv beta in *.
    pose proof (trunc_rnd_close rnd (inject_Z rows - y b) Hr Hb) as [H1 H2].
    subst row y'. cbv beta. unfold fsub.
    pose proof (inject_Z_plus rows (- trunc (rnd (inject_Z rows - y b)))) as Hplus.
    unfold Z.sub. rewrite Hplus, inject_Z_opp. lra.
  - eapply Forall_impl; [exact Hrange|]. intros b Hb n Hn. cbv beta in *.
    subst row y'. cbv beta. unfold fsub.
    assert (inject_Z rows - y b == inject_Z (rows - n)) as He.
    { unfold Z.sub. rewrite inject_Z_plus, inject_Z_opp, Hn. reflexivity. }
    destruct Hb as [Hlo Hhi].
    assert (inject_Z (- (2 ^ 53 - 1)) <= inject_Z (rows - n)) as Hlo'.
    { rewrite inject_Z_opp. by rewrite <- He. }
    assert (inject_Z (rows - n) <= inject_Z (2 ^ 53 - 1)) as Hhi'.
    { by rewrite <- He. }
    rewrite <- Zle_Qle in Hlo', Hhi'.
    rewrite (trunc_rnd_Z rnd _ (rows - n) Hr); [lia|lia|exact He].
  - intros det tx ty text Hdet Hl.
    by apply (draw_one_center str format_2f rows det _ _ _ _ text Hdet).
Qed.

(** One box in a frame 480 rows high, centred at row 30.5: the flipped
    coordinate is 449.5, the monitor plots row 31. *)
Lemma draw_inverts_flip_witness :
  let str := fun v : value => match v with VStr s => s | _ => ""%string end in
  let format_2f := fun _ : Q => "0.90"%string in
  rounding rnd_grid /\
  Forall (fun b => in_range 480 (midpoint rnd_grid (y1 b) (y2 b)))
    [Scenario.arch_box] /\
  draw_detections str format_2f 480
    (collect rnd_grid Scenario.names 480 [Scenario.arch_box]) =
  Some [Circle (20%Z, 31%Z) 5; PutText "arch (0.90)" (30%Z, 31%Z)].
Proof.
  intros str format_2f.
  assert (Hrange : Forall (fun b => in_range 480 (midpoint rnd_grid (y1 b) (y2 b)))
                     [Scenario.arch_box]).
  { constructor; [|constructor]. split; vm_compute; discriminate. }
  split; [exact rnd_grid_rounding|]. split; [exact Hrange|].
  destruct (draw_inverts_flip rnd_grid str format_2f Scenario.names 480
              [Scenario.arch_box] rnd_grid_rounding Hrange) as [Hdraw _].
  rewrite Hdraw. vm_compute. reflexivity.
Defined.

Local Close Scope Q_scope.

(* ===================================================================== *)
(** * Further properties of the code *)
(* ===================================================================== *)

(** ** The store *)

Lemma last_push (max : nat) (hist : list loc) (r : loc) :
  0 < max -> length hist <= max -> last (push max hist r) = Some r.
Proof.
  intros Hmax Hlen. rewrite push_spec by done.
  rewrite drop_app_le by lia. apply last_snoc.
Qed.

(** X1. The latest of a channel is the newest entry of its history, and both
    are empty together. *)
Theorem latest_is_newest_entry (h : heap) (ops : list op) :
  let st := exec ops (boot h) in
  _latest_data (self st) = last (get_history st) /\
  _latest_raw_data (self st) = last (get_raw_history st) /\
  get_latest_data st = from_option (deref (objs st)) ∅ (last (get_history st)) /\
  get_latest_raw_data st =
    from_option (deref (objs st)) ∅ (last (get_raw_history st)).
Proof.
  cbv zeta.
  assert (Hinv : forall ch,
            latest_ref ch (self (exec ops (boot h))) =
            last (history_refs ch (self (exec ops (boot h))))).
  { intros ch. induction ops as [|o ops IH] using rev_ind; [by destruct ch|].
    rewrite exec_snoc.
    destruct (history_bound_exec ch ops (boot h)) as [Hmax Hlen];
      [destruct ch; cbn; lia|].
    destruct o as [r now|]; cbn [step]; [|by destruct ch].
    rewrite latest_ref_store_data, history_refs_store_data.
    case_decide; [|done]. symmetry. rewrite Hmax.
    apply last_push; [cbn; lia|done]. }
  pose proof (Hinv processed) as Hp. pose proof (Hinv raw) as Hr.
  cbn [latest_ref history_refs] in Hp, Hr.
  unfold get_latest_data, get_latest_raw_data, get_history, get_raw_history.
  rewrite Hp, Hr. repeat split; by destruct (last _).
Qed.

(** X2. Each history holds payloads of its own kind only. *)
Theorem histories_hold_their_kind (h : heap) (ops : list op) :
  let st := exec ops (boot h) in
  Forall (fun r => is_raw (objs st) r = false) (get_history st) /\
  Forall (fun r => is_raw (objs st) r = true) (get_raw_history st) /\
  truthy (get (get_latest_data st) "raw_image" (VBool false)) = false /\
  (get_latest_raw_data st = ∅ \/
   truthy (get (get_latest_raw_data st) "raw_image" (VBool false)) = true).
Proof.
  cbv zeta. pose proof (consistent_exec ops h) as Hc.
  set (st := exec ops (boot h)) in *.
  assert (Hkind : forall ch r, holds ch (self st) r ->
            is_raw (objs st) r = match ch with raw => true | processed => false end).
  { intros ch r Hr. apply Hc in Hr. unfold channel_of in Hr.
    destruct (is_raw (objs st) r), ch; congruence. }
  split; [|split; [|split]].
  - apply Forall_forall. intros r Hr. apply (Hkind processed). by right.
  - apply Forall_forall. intros r Hr. apply (Hkind raw). by right.
  - unfold get_latest_data.
    destruct (_latest_data (self st)) as [r|] eqn:Hl; [|done].
    apply (Hkind processed). by left.
  - unfold get_latest_raw_data.
    destruct (_latest_raw_data (self st)) as [r|] eqn:Hl; [|by left].
    right. apply (Hkind raw). by left.
Qed.

(** X3. Every payload the store holds carries the float time stamp
    [store_data] wrote. *)
Theorem held_payloads_are_stamped (h : heap) (ops : list op) :
  let st := exec ops (boot h) in
  let has_stamp (d : dict) := exists t : Q, d !! "timestamp" = Some (VFloat t) in
  Forall has_stamp (contents (objs st) (get_history st)) /\
  Forall has_stamp (contents (objs st) (get_raw_history st)) /\
  (get_latest_data st = ∅ \/ has_stamp (get_latest_data st)) /\
  (get_latest_raw_data st = ∅ \/ has_stamp (get_latest_raw_data st)).
Proof.
  cbv zeta.
  assert (Hinv : forall ch r, holds ch (self (exec ops (boot h))) r ->
            exists t : Q, deref (objs (exec ops (boot h))) r !! "timestamp"
                          = Some (VFloat t)).
  { induction ops as [|o ops IH] using rev_ind.
    - intros ch r [Hl|Hh]; destruct ch; cbn in *; try done; by apply elem_of_nil in Hh.
    - intros ch x. rewrite exec_snoc. destruct o as [r now|]; cbn [step].
      + unfold holds. rewrite latest_ref_store_data, history_refs_store_data.
        rewrite objs_store_data, deref_setitem.
        destruct (decide (r = x)) as [->|Hne].
        * intros _. exists now. by rewrite lookup_insert_eq.
        * intros Hx. apply (IH ch). unfold holds.
          case_decide; [|done]. destruct Hx as [[= ?]|Hx]; [done|].
          apply elem_of_push in Hx as [?|?]; [by right|done].
      + intros [Hl|Hh]; destruct ch; cbn in *; try done; by apply elem_of_nil in Hh. }
  set (st := exec ops (boot h)) in *.
  split; [|split; [|split]].
  - unfold contents. apply Forall_fmap, Forall_forall. intros r Hr.
    apply (Hinv processed). by right.
  - unfold contents. apply Forall_fmap, Forall_forall. intros r Hr.
    apply (Hinv raw). by right.
  - unfold get_latest_data.
    destruct (_latest_data (self st)) as [r|] eqn:Hl; [|by left].
    right. apply (Hinv processed). by left.
  - unfold get_latest_raw_data.
    destruct (_latest_raw_data (self st)) as [r|] eqn:Hl; [|by left].
    right. apply (Hinv raw). by left.
Qed.

(** X4. After [clear_data] the store is a new one: whatever was stored before
    plays no part in what follows. *)
Theorem clear_data_starts_afresh (h : heap) (before after : list op) :
  exec (before ++ Clear :: after) (boot h) =
  exec after (boot (objs (exec before (boot h)))).
Proof.
  unfold exec at 1. rewrite foldl_app. cbn [foldl step]. fold (exec before (boot h)).
  destruct (history_bound_exec processed before (boot h)) as [Hmax _]; [cbn; lia|].
  unfold clear_data. rewrite Hmax. reflexivity.
Qed.

(** X5. [get_detection_count] reads the processed channel only.  Right after
    a processed payload is stored it is the length of its detections, 0
    when the payload has none; a raw payload stored afterwards leaves it
    as it was; with nothing stored, or after [clear_data], it is 0. *)
Theorem detection_count_follows_processed (h : heap) (ops : list op)
    (r : loc) (now : Q) :
  let st := exec ops (boot h) in
  let st' := store_data r now st in
  (if is_raw (objs st) r
   then get_detection_count st' = get_detection_count st
   else get_detection_count st' =
        len (get (deref (objs st) r) "detections" (VList []))) /\
  get_detection_count (boot h) = Some 0 /\
  get_detection_count (clear_data st) = Some 0.
Proof.
  intros st st'. split; [|done].
  destruct (is_raw (objs st) r) eqn:Hr.
  - unfold get_detection_count.
    destruct (store_data_frame processed r now st) as [Hl _].
    + apply consistent_exec.
    + unfold channel_of. by rewrite Hr.
    + cbn [GetLatest] in Hl. subst st'. by rewrite Hl.
  - unfold get_detection_count, get_latest_data. subst st'.
    pose proof (latest_ref_store_data processed r now st) as Hl.
    unfold channel_of in Hl. rewrite Hr in Hl.
    rewrite decide_True in Hl by done. cbn [latest_ref] in Hl.
    rewrite Hl, objs_store_data. cbn [snapshot]. rewrite deref_setitem_eq.
    unfold get. by rewrite lookup_insert_ne.
Qed.

Lemma deref_run_other (calls : list call) (st : state) (r : loc) :
  r ∉ fst <$> calls -> deref (objs (run calls st)) r = deref (objs st) r.
Proof.
  induction calls as [|[r' t'] calls IH] using rev_ind; [done|].
  rewrite fmap_app, not_elem_of_app. cbn. intros [Hcalls Hr'].
  rewrite run_snoc, objs_store_data. cbn [fst snd].
  rewrite deref_setitem_ne; [by apply IH|].
  intros ->. apply Hr'. by apply list_elem_of_singleton.
Qed.

Lemma deref_run_once (calls : list call) (st : state) (r : loc) (t : Q) :
  NoDup (fst <$> calls) -> (r, t) ∈ calls ->
  deref (objs (run calls st)) r = stamped t (deref (objs st) r).
Proof.
  induction calls as [|[r' t'] calls IH] using rev_ind; [by intros _ ?%elem_of_nil|].
  rewrite fmap_app. cbn. intros [Hnd [Hdisj _]]%NoDup_app Hin.
  rewrite run_snoc, objs_store_data. cbn [fst snd].
  apply elem_of_app in Hin as [Hin|Hin].
  - assert (r ∈ fst <$> calls) as Hr.
    { apply list_elem_of_fmap. by exists (r, t). }
    rewrite deref_setitem_ne; [by apply IH|].
    intros ->. apply (Hdisj r Hr). by apply list_elem_of_singleton.
  - apply list_elem_of_singleton in Hin as [= -> ->].
    rewrite deref_setitem_eq. unfold stamped. f_equal.
    apply deref_run_other. intros Hr. apply (Hdisj r' Hr).
    by apply list_elem_of_singleton.
Qed.

(** X6. When every call passes an object of its own, a history shows the
    payloads as they were submitted, each with its own receipt time, the
    last 100 of them in arrival order. *)
Theorem history_shows_payloads_as_stored (h : heap) (ch : channel)
    (calls : list call) :
  NoDup (fst <$> calls) ->
  let st := run calls (boot h) in
  let arrived :=
    (fun c => stamped (snd c) (deref h (fst c))) <$> calls_to h ch calls in
  contents (objs st) (GetHistory ch st) = drop (length arrived - 100) arrived.
Proof.
  intros Hnd st arrived. subst st arrived.
  rewrite GetHistory_refs.
  rewrite (history_run ch calls (boot h)) by (destruct ch; cbn; lia).
  replace (history_refs ch (self (boot h))) with (@nil loc) by (by destruct ch).
  cbn [app boot objs self init _max_history].
  rewrite !length_fmap. unfold contents. rewrite <- !fmap_drop, <- list_fmap_compose.
  apply list_fmap_ext. intros i [r t] Hi. cbn.
  rewrite lookup_drop in Hi.
  apply (deref_run_once calls (boot h) r t Hnd).
  unfold calls_to in Hi.
  apply list_elem_of_lookup_2 in Hi. by apply list_elem_of_filter in Hi as [_ ?].
Qed.

Lemma history_shows_payloads_as_stored_witness :
  NoDup (fst <$> Scenario.calls101) /\
  (let st := run Scenario.calls101 (boot Scenario.heap101) in
   let arrived :=
     (fun c => stamped (snd c) (deref Scenario.heap101 (fst c)))
       <$> calls_to Scenario.heap101 processed Scenario.calls101 in
   contents (objs st) (GetHistory processed st) =
   drop (length arrived - 100) arrived).
Proof.
  assert (Hnd : NoDup (fst <$> Scenario.calls101)).
  { apply (bool_decide_unpack _). vm_compute. exact I. }
  split; [exact Hnd|].
  apply (history_shows_payloads_as_stored Scenario.heap101 processed
           Scenario.calls101 Hnd).
Defined.

(** ** The routes *)

Import Routes.

Lemma receive_data_not_dict (srv : FlaskServer) (v : value) (now : Q)
    (w : world) (ds : DataStorage) :
  data_store w = Some ds ->
  match v with
  | VDict _ => True
  | _ => receive_data srv (json v) now w = (Error500 TypeError, w)
  end.
Proof.
  intros Hds. destruct v; try done;
    unfold receive_data, receive_data_try, mbind, handler_bind, bind, lift,
      new_object, store; cbn; by rewrite Hds.
Qed.

(** X7. What [receive_data] turns away it leaves no trace of: a request that
    is not JSON, a body [get_json] cannot decode, and, with a store, a
    document that is not an object. *)
Theorem rejected_requests_change_nothing (srv : FlaskServer) (now : Q)
    (h : heap) (ds : DataStorage) (body : exn + value) (e : exn)
    (v : value) :
  let w := {| w_objs := h; data_store := Some ds |} in
  receive_data srv {| is_json := false; get_json := body |} now w
    = (Rejected415, w) /\
  receive_data srv {| is_json := true; get_json := inl e |} now w
    = (Error500 e, w) /\
  match v with
  | VDict _ => True
  | _ => receive_data srv (json v) now w = (Error500 TypeError, w)
  end.
Proof.
  intros w. split; [done|]. split; [done|].
  by apply (receive_data_not_dict srv v now w ds).
Qed.

(** The world after a JSON object was posted to a process with a store. *)
Lemma receive_data_dict_world (srv : FlaskServer) (d : dict) (now : Q)
    (w : world) (ds : DataStorage) :
  data_store w = Some ds ->
  let r := fresh (dom (w_objs w)) in
  let st' := store_data r now {| objs := <[r := d]> (w_objs w); self := ds |} in
  snd (receive_data srv (json (VDict d)) now w) =
    {| w_objs := objs st'; data_store := Some (self st') |} /\
  view (snd (receive_data srv (json (VDict d)) now w)) = Some st' /\
  deref (objs st') r = stamped now d /\
  channel_of (<[r := d]> (w_objs w)) r =
    (if truthy (get d "raw_image" (VBool false)) then raw else processed).
Proof.
  intros Hds r st'. unfold json.
  rewrite (receive_data_dict srv d now w ds Hds). fold r. fold st'. cbn [snd].
  split; [done|]. split; [by destruct st'|]. split.
  - subst st'. rewrite objs_store_data, deref_setitem_eq. cbn [objs].
    unfold deref. by rewrite lookup_insert_eq.
  - unfold channel_of, is_raw, deref. by rewrite lookup_insert_eq.
Qed.

(** What the latest getters of the world return after a JSON object was
    posted: the payload, in the channel of its kind. *)
Lemma receive_data_dict_latest (srv : FlaskServer) (d : dict) (now : Q)
    (w : world) (ds : DataStorage) :
  data_store w = Some ds ->
  (if truthy (get d "raw_image" (VBool false))
   then latest_raw (snd (receive_data srv (json (VDict d)) now w))
   else latest (snd (receive_data srv (json (VDict d)) now w)))
  = Some (stamped now d).
Proof.
  intros Hds.
  destruct (receive_data_dict_world srv d now w ds Hds) as (_ & Hview & Hd & Hch).
  unfold latest, latest_raw. rewrite Hview. cbn [fmap option_fmap option_map].
  set (r := fresh (dom (w_objs w))) in *.
  set (st := {| objs := <[r := d]> (w_objs w); self := ds |}) in *.
  destruct (truthy (get d "raw_image" (VBool false))).
  - f_equal. rewrite <- Hd. change (GetLatest raw (store_data r now st) = deref (objs (store_data r now st)) r).
    rewrite GetLatest_snapshot, latest_ref_store_data.
    change (objs st) with (<[r := d]> (w_objs w)). rewrite Hch.
    by rewrite decide_True.
  - f_equal. rewrite <- Hd. change (GetLatest processed (store_data r now st) = deref (objs (store_data r now st)) r).
    rewrite GetLatest_snapshot, latest_ref_store_data.
    change (objs st) with (<[r := d]> (w_objs w)). rewrite Hch.
    by rewrite decide_True.
Qed.

(** X8. When the BLE hand-over raises, the reply is an error 500, and the
    payload is in the store all the same: it is the latest of its
    channel. *)
Theorem failed_handover_keeps_the_payload (send_data : BLEHandler)
    (e : exn) (d : dict) (now : Q) (h : heap) (ds : DataStorage) :
  send_data (VDict (stamped now d)) = Some e ->
  let srv := {| ble_handler := Some send_data |} in
  let w := {| w_objs := h; data_store := Some ds |} in
  let w' := snd (receive_data srv (json (VDict d)) now w) in
  fst (receive_data srv (json (VDict d)) now w) = Error500 e /\
  (if truthy (get d "raw_image" (VBool false)) then latest_raw w' else latest w')
  = Some (stamped now d).
Proof.
  intros He srv w w'. split.
  - unfold json. rewrite (receive_data_dict srv d now w ds eq_refl).
    cbn [fst]. unfold answer. subst srv. cbn [ble_handler]. by rewrite He.
  - by apply (receive_data_dict_latest srv d now w ds).
Qed.

Lemma failed_handover_keeps_the_payload_witness :
  let send_data : BLEHandler := fun _ => Some (Raised "BLE write failed") in
  let now := inject_Z 1700000000 in
  let srv := {| ble_handler := Some send_data |} in
  let w := {| w_objs := ∅; data_store := Some init |} in
  send_data (VDict (stamped now Scenario.sent)) = Some (Raised "BLE write failed") /\
  fst (receive_data srv (json (VDict Scenario.sent)) now w)
    = Error500 (Raised "BLE write failed") /\
  latest (snd (receive_data srv (json (VDict Scenario.sent)) now w))
    = Some (stamped now Scenario.sent).
Proof.
  intros send_data now srv w. split; [reflexivity|].
  exact (failed_handover_keeps_the_payload send_data (Raised "BLE write failed")
           Scenario.sent now ∅ init eq_refl).
Defined.

(** X9. A payload whose detections have no length, a number or [null], is
    stored and handed to BLE before [len] raises: the reply is an error
    500 and the payload is the latest of its channel. *)
Theorem unsized_detections_fail_after_storing (srv : FlaskServer) (d : dict)
    (now : Q) (h : heap) (ds : DataStorage) :
  len (get d "detections" (VList [])) = None ->
  match ble_handler srv with
  | Some send_data => send_data (VDict (stamped now d)) = None
  | None => True
  end ->
  let w := {| w_objs := h; data_store := Some ds |} in
  let w' := snd (receive_data srv (json (VDict d)) now w) in
  fst (receive_data srv (json (VDict d)) now w) = Error500 TypeError /\
  (if truthy (get d "raw_image" (VBool false)) then latest_raw w' else latest w')
  = Some (stamped now d).
Proof.
  intros Hlen Hble w w'. split.
  - unfold json. rewrite (receive_data_dict srv d now w ds eq_refl).
    cbn [fst]. unfold answer.
    assert (get (stamped now d) "detections" (VList []) =
            get d "detections" (VList [])) as ->.
    { unfold get, stamped. by rewrite lookup_insert_ne. }
    rewrite Hlen. destruct (ble_handler srv); [by rewrite Hble|done].
  - by apply (receive_data_dict_latest srv d now w ds).
Qed.

Lemma unsized_detections_fail_after_storing_witness :
  let srv := {| ble_handler := None |} in
  let now := inject_Z 1700000000 in
  let w := {| w_objs := ∅; data_store := Some init |} in
  len (get Scenario.null_detections "detections" (VList [])) = None /\
  fst (receive_data srv (json (VDict Scenario.null_detections)) now w)
    = Error500 TypeError /\
  latest (snd (receive_data srv (json (VDict Scenario.null_detections)) now w))
    = Some (stamped now Scenario.null_detections).
Proof.
  intros srv now w. split; [reflexivity|].
  exact (unsized_detections_fail_after_storing srv Scenario.null_detections
           now ∅ init eq_refl I).
Defined.

(** A request leaves the world as it is or stores one new object. *)
Lemma receive_data_world (srv : FlaskServer) (req : request) (now : Q)
    (w : world) (ds : DataStorage) :
  data_store w = Some ds ->
  snd (receive_data srv req now w) = w \/
  exists d : dict,
    let r := fresh (dom (w_objs w)) in
    let st' := store_data r now {| objs := <[r := d]> (w_objs w); self := ds |} in
    snd (receive_data srv req now w) =
    {| w_objs := objs st'; data_store := Some (self st') |}.
Proof.
  intros Hds. destruct req as [[] [e|v]]; try (by left).
  destruct v as [| | | | | |d];
    try (left; change ({| is_json := true; get_json := inr ?v |}) with (json v);
         pose proof (receive_data_not_dict srv) as Hnd;
         match goal with |- snd (receive_data _ (json ?v) _ _) = _ =>
           by rewrite (Hnd v now w ds Hds) end).
  right. exists d. cbv zeta.
  by rewrite (receive_data_dict srv d now w ds Hds).
Qed.

Lemma served_snoc (srv : FlaskServer) (posts : list post) (p : post) (h : heap) :
  served srv (posts ++ [p]) h = serve srv (served srv posts h) p.
Proof. unfold served. by rewrite foldl_app. Qed.

(** A process that started with a store keeps it, and the store refers
    to objects of the heap only. *)
Lemma served_invariant (srv : FlaskServer) (posts : list post) (h : heap) :
  (exists ds, data_store (served srv posts h) = Some ds) /\
  refs_live (served srv posts h).
Proof.
  induction posts as [|p posts [[ds Hds] Hlive]] using rev_ind.
  - split; [by exists init|].
    intros ds ch r [= <-] [Hl|Hh]; destruct ch; cbn in *; try done;
      by apply elem_of_nil in Hh.
  - rewrite served_snoc. set (w := served srv posts h) in *.
    destruct p as [req now|]; cbn [serve].
    + destruct (receive_data_world srv req now w ds Hds) as [->|[d Hw]];
        [by split; [exists ds|]|].
      cbv zeta in Hw. rewrite Hw. split; [by eexists|].
      intros ds' ch x [= <-]. cbn [w_objs]. unfold holds.
      rewrite latest_ref_store_data, history_refs_store_data, objs_store_data.
      cbn [objs self]. unfold setitem. rewrite !dom_insert_L.
      set (r := fresh (dom (w_objs w))).
      intros Hx.
      assert (x = r \/ holds ch ds x) as [->|Hold].
      { case_decide; [|by right]. destruct Hx as [[= <-]|Hx]; [by left|].
        apply elem_of_push in Hx as [?|?]; [right; by right|by left]. }
      * clear Hx. set_solver.
      * specialize (Hlive ds ch x Hds Hold). clear Hx. set_solver.
    + unfold Routes.clear_data, view. rewrite Hds. cbn.
      split; [by eexists|].
      intros ds' ch x [= <-] [Hl|Hh]; destruct ch; cbn in *; try done;
        by apply elem_of_nil in Hh.
Qed.

(** X10. [GET /get] and [GET /status] show the last processed submission and
    never a raw one: posting a raw payload changes neither answer, and
    after a processed payload [GET /get] returns it, time-stamped, and
    [GET /status] reports its time stamp and the number of its
    detections. *)
Theorem get_shows_processed_only (srv : FlaskServer) (posts : list post)
    (h : heap) (d : dict) (now : Q) :
  let w := served srv posts h in
  let w' := snd (receive_data srv (json (VDict d)) now w) in
  if truthy (get d "raw_image" (VBool false))
  then get_data w' = get_data w /\ get_status srv w' = get_status srv w
  else get_data w' = Ok (stamped now d) /\
       get_status srv w' =
       match len (get d "detections" (VList [])) with
       | Some n => Ok (status_body srv (Z.of_nat n) (VFloat now) true)
       | None => Failed TypeError
       end.
Proof.
  intros w w'.
  destruct (served_invariant srv posts h) as [[ds Hds] Hlive]. fold w in Hds, Hlive.
  destruct (receive_data_dict_world srv d now w ds Hds) as (_ & Hview & Hd & Hch).
  fold w' in Hview.
  pose proof (receive_data_dict_latest srv d now w ds Hds) as Hlatest.
  fold w' in Hlatest.
  set (r := fresh (dom (w_objs w))) in *.
  set (st := {| objs := <[r := d]> (w_objs w); self := ds |}) in *.
  assert (Hfresh : r ∉ dom (w_objs w)) by apply is_fresh.
  destruct (truthy (get d "raw_image" (VBool false))) eqn:Hraw.
  - assert (Hsame : get_latest_data (store_data r now st)
                    = get_latest_data {| objs := w_objs w; self := ds |}).
    { change (GetLatest processed (store_data r now st)
              = GetLatest processed {| objs := w_objs w; self := ds |}).
      rewrite !GetLatest_snapshot, latest_ref_store_data, objs_store_data.
      change (objs st) with (<[r := d]> (w_objs w)). rewrite Hch.
      rewrite decide_False by done. unfold st. cbn [self objs latest_ref].
      destruct (_latest_data ds) as [x|] eqn:Hx; [|done]. cbn [snapshot].
      assert (x ∈ dom (w_objs w)) as Hin.
      { apply (Hlive ds processed x Hds). by left. }
      assert (r ≠ x) by (intros ->; done).
      rewrite deref_setitem_ne by done.
      unfold deref. by rewrite lookup_insert_ne. }
    unfold get_data, get_status, get_detection_count. rewrite Hview.
    unfold view. rewrite Hds. cbn [fmap option_fmap option_map].
    by rewrite Hsame.
  - unfold latest in Hlatest. rewrite Hview in Hlatest.
    injection Hlatest as Hlatest.
    unfold get_data, get_status, get_detection_count. rewrite Hview, Hlatest.
    split; [done|].
    assert (get (stamped now d) "detections" (VList []) =
            get d "detections" (VList [])) as ->.
    { unfold get, stamped. by rewrite lookup_insert_ne. }
    destruct (len _); [|done].
    unfold get, stamped. by rewrite lookup_insert_eq.
Qed.

(** X11. At start-up and after [POST /clear], [GET /get] answers with the
    empty object and [GET /status] with no detections and time stamp 0. *)
Theorem empty_store_answers (srv : FlaskServer) (posts : list post) (h : heap) :
  let w := snd (Routes.clear_data (served srv posts h)) in
  fst (Routes.clear_data (served srv posts h)) = Ok {[ "status" := VStr "cleared" ]} /\
  get_data w = Ok ∅ /\
  get_status srv w = Ok (status_body srv 0 (VInt 0) true) /\
  get_data (start h) = Ok ∅ /\
  get_status srv (start h) = Ok (status_body srv 0 (VInt 0) true).
Proof.
  intros w. destruct (served_invariant srv posts h) as [[ds Hds] _].
  subst w. unfold Routes.clear_data, view. rewrite Hds. by cbn.
Qed.

(** X12. Without a data store a submitted object is still acknowledged, and
    handed to BLE without a time stamp, but nothing keeps it: [GET /get]
    goes on answering with the placeholder, [GET /status] with zeros, and
    [POST /clear] says there is no store. *)
Theorem no_store_drops_submissions (srv : FlaskServer) (d : dict) (now : Q)
    (h : heap) :
  let w := {| w_objs := h; data_store := None |} in
  let w' := snd (receive_data srv (json (VDict d)) now w) in
  fst (receive_data srv (json (VDict d)) now w) = answer srv d /\
  data_store w' = None /\
  get_data w' = Ok no_store_body /\
  get_status srv w' = Ok (status_body srv 0 (VInt 0) false) /\
  Routes.clear_data w' = (Ok {[ "status" := VStr "no data store available" ]}, w').
Proof.
  intros w w'.
  assert (Hrun : receive_data srv (json (VDict d)) now w =
                 (answer srv d,
                  {| w_objs := <[fresh (dom h) := d]> h; data_store := None |})).
  { unfold receive_data, receive_data_try, json. cbn [is_json get_json negb].
    unfold mbind, handler_bind, bind, lift, new_object, store, send_ble,
      received_count, mret, handler_ret, ret, answer.
    cbn [data_store w_objs w read]. unfold deref. rewrite lookup_insert_eq. cbn.
    destruct (ble_handler srv) as [send_data|].
    - destruct (send_data _); [done|]. cbn. unfold deref.
      rewrite lookup_insert_eq. cbn. by destruct (len _).
    - cbn. unfold deref. rewrite lookup_insert_eq. cbn. by destruct (len _). }
  subst w'. rewrite Hrun. by cbn.
Qed.

(** ** The sender, further *)

Lemma elem_of_ids (names : gmap Z string) (c : Z) :
  c ∈ ids names <-> exists n, names !! c = Some n /\ n ∈ target.
Proof.
  unfold ids. rewrite list_elem_of_fmap. split.
  - intros [[c' n] [-> Hin]]. apply list_elem_of_filter in Hin as [Ht Hin].
    apply elem_of_map_to_list in Hin. by exists n.
  - intros [n [Hn Ht]]. exists (c, n). split; [done|].
    apply list_elem_of_filter. split; [done|]. by apply elem_of_map_to_list.
Qed.

(** X13. Every detection the sender posts is of one of the four classes of
    interest and keeps the confidence of its box; boxes of any other
    class, or of a class the model does not name, are dropped, so a
    payload never has more detections than the detector found boxes. *)
Theorem detections_are_of_target_classes (rnd : Q -> Q)
    (names : gmap Z string) (h : Z) (boxes : list box) :
  let kept := filter (fun b => trunc (cls b) ∈ ids names) boxes in
  Forall2 (fun b d =>
             (exists n, names !! trunc (cls b) = Some n /\
                        d !! "class" = Some (VStr n) /\
                        n ∈ ["triangle"; "rectangle"; "arch"; "cube"]) /\
             d !! "confidence" = Some (VFloat (conf b)))
          kept (collect rnd names h boxes) /\
  length (collect rnd names h boxes) <= length boxes.
Proof.
  intros kept. rewrite collect_filter. fold kept. split.
  - apply Forall2_fmap_r, Forall_Forall2_diag, Forall_forall. intros b Hb.
    apply list_elem_of_filter in Hb as [Hb _].
    apply elem_of_ids in Hb as [n [Hn Ht]].
    unfold detection. rewrite Hn. cbn [default from_option].
    split; [exists n; split; [done|]; split; [by simplify_map_eq|done]|].
    by simplify_map_eq.
  - rewrite length_fmap. apply length_filter.
Qed.

(** X14. In processed mode the detections posted with a frame were found on
    that very frame: the detector runs once, on the cropped frame, and
    that frame is the posted image.  When the crop fails the iteration
    posts nothing, runs no detector and does not even pause. *)
Theorem detections_belong_to_the_posted_frame
    (rnd : Q -> Q) (encode_image_to_base64 : image -> string)
    (get_cropped_image : option image -> option image)
    (names : gmap Z string) (model : image -> list box)
    (frame : option image) (stamp : string) :
  let evs := iteration rnd encode_image_to_base64 get_cropped_image names model
               false frame stamp in
  match get_cropped_image frame with
  | Some cropped =>
      detector_calls evs = [cropped] /\
      exists p, posts evs = [p] /\
        p !! "image" = Some (VStr (encode_image_to_base64 cropped)) /\
        p !! "detections" =
          Some (VList (VDict <$> collect rnd names (shape0 cropped) (model cropped))) /\
        last evs = Some EvSleep
  | None => evs = []
  end.
Proof.
  cbv zeta. unfold iteration.
  destruct (get_cropped_image frame) as [cropped|]; [|done].
  split; [done|]. eexists. split; [reflexivity|].
  unfold send_image_data. cbn [negb].
  split; [by simplify_map_eq|]. split; [by simplify_map_eq|done].
Qed.

(** X15. Every payload the sender posts, in either mode, has the five fields
    and no other: the encoded image, a time stamp, a list of detections,
    the width and height of the posted image, and the mode flag. *)
Theorem posted_payloads_are_complete
    (rnd : Q -> Q) (encode_image_to_base64 : image -> string)
    (get_cropped_image : option image -> option image)
    (names : gmap Z string) (model : image -> list box)
    (send_raw_mode : bool) (frame : option image) (stamp : string) :
  let evs := iteration rnd encode_image_to_base64 get_cropped_image names model
               send_raw_mode frame stamp in
  length (posts evs) <= 1 /\
  Forall (fun p =>
            dom p = ({[ "image"; "timestamp"; "detections"; "crop_shape";
                        "raw_image" ]} : gset string) /\
            p !! "raw_image" = Some (VBool send_raw_mode) /\
            p !! "timestamp" = Some (VStr stamp) /\
            (exists dets, p !! "detections" = Some (VList dets)) /\
            (exists img, p !! "image" = Some (VStr (encode_image_to_base64 img)) /\
               p !! "crop_shape" = Some (VList [VInt (shape1 img); VInt (shape0 img)])))
         (posts evs).
Proof.
  assert (Hsend : forall img dets is_raw,
    let p := send_image_data encode_image_to_base64 img dets is_raw stamp in
    dom p = ({[ "image"; "timestamp"; "detections"; "crop_shape";
                "raw_image" ]} : gset string) /\
    p !! "raw_image" = Some (VBool is_raw) /\
    p !! "timestamp" = Some (VStr stamp) /\
    (exists ds, p !! "detections" = Some (VList ds)) /\
    (exists im, p !! "image" = Some (VStr (encode_image_to_base64 im)) /\
       p !! "crop_shape" = Some (VList [VInt (shape1 im); VInt (shape0 im)]))).
  { intros img dets is_raw p. subst p. unfold send_image_data.
    split; [rewrite !dom_insert_L, dom_singleton_L; set_solver|].
    split; [by simplify_map_eq|]. split; [by simplify_map_eq|].
    split; [eexists; by simplify_map_eq|].
    exists img. split; by simplify_map_eq. }
  cbv zeta. unfold iteration. destruct send_raw_mode.
  - destruct frame as [f|]; cbn; (split; [lia|]);
      [constructor; [apply Hsend|constructor]|constructor].
  - destruct (get_cropped_image frame) as [cropped|]; cbn; (split; [lia|]);
      [constructor; [apply Hsend|constructor]|constructor].
Qed.

(** ** The command listener *)

Import Listener.

(** X16. The mode the listener leaves is the mode it found, flipped once for
    every line that reads [raw]; other lines do nothing.  A line that
    reads [quit], or an exception of [input], ends the listener: what is
    typed afterwards is never read. *)
Theorem raw_commands_toggle_the_mode (normalize : string -> string)
    (lines : list string) (q : string) (rest : list input) (mode : bool) :
  Forall (fun s => normalize s <> "quit") lines ->
  normalize q = "quit" ->
  let flips := length (filter (fun s => normalize s = "raw") lines) in
  let mode' := xorb mode (Nat.odd flips) in
  command_listener normalize (Line <$> lines) mode = (mode', false) /\
  command_listener normalize ((Line <$> lines) ++ Line q :: rest) mode
    = (mode', true) /\
  command_listener normalize ((Line <$> lines) ++ Interrupt :: rest) mode
    = (mode', true).
Proof.
  intros Hlines Hq. cbv zeta. revert mode.
  induction Hlines as [|s lines Hs Hlines IH]; intros mode.
  - cbn. rewrite Hq. cbn. by destruct mode.
  - cbn [fmap list_fmap app command_listener]. rewrite filter_cons.
    destruct (decide (normalize s = "raw")) as [Hraw|Hother].
    + rewrite Hraw. cbn [String.eqb Ascii.eqb Bool.eqb length].
      rewrite Nat.odd_succ, <- Nat.negb_odd.
      destruct (IH (negb mode)) as (-> & -> & ->).
      by destruct mode, (Nat.odd _).
    + assert (String.eqb (normalize s) "raw" = false) as ->
        by (by apply String.eqb_neq).
      assert (String.eqb (normalize s) "quit" = false) as ->
        by (by apply String.eqb_neq).
      apply IH.
Qed.

Lemma raw_commands_toggle_the_mode_witness :
  let normalize := fun s : string => s in
  let lines := ["raw"; "status"; "raw"; "raw"] in
  Forall (fun s => normalize s <> "quit") lines /\
  normalize "quit" = "quit" /\
  command_listener normalize ((Line <$> lines) ++ Line "quit" :: [Line "raw"]) false
    = (true, true).
Proof.
  intros normalize lines.
  assert (Hl : Forall (fun s => normalize s <> "quit") lines)
    by (repeat constructor; discriminate).
  split; [exact Hl|]. split; [reflexivity|].
  destruct (raw_commands_toggle_the_mode normalize lines "quit" [Line "raw"]
              false Hl eq_refl) as (_ & H & _).
  exact H.
Defined.

(** ** From the sender to the store *)

(** X17. The server accepts every payload the sender posts: with a store and
    no failing BLE handler the reply is status success with the number of
    posted detections, and the payload becomes, with the server's time
    stamp in place of the sender's, the latest of the raw channel in raw
    mode and of the processed channel otherwise. *)
Theorem posted_payloads_are_accepted
    (rnd : Q -> Q) (encode_image_to_base64 : image -> string)
    (get_cropped_image : option image -> option image)
    (names : gmap Z string) (model : image -> list box)
    (send_raw_mode : bool) (frame : option image) (stamp : string)
    (now : Q) (h : heap) (ds : DataStorage) :
  let evs := iteration rnd encode_image_to_base64 get_cropped_image names model
               send_raw_mode frame stamp in
  let srv := {| ble_handler := None |} in
  let w := {| w_objs := h; data_store := Some ds |} in
  Forall (fun p =>
            let w' := snd (receive_data srv (json (VDict p)) now w) in
            (exists dets, p !! "detections" = Some (VList dets) /\
               fst (receive_data srv (json (VDict p)) now w)
               = Success200 (length dets)) /\
            (if send_raw_mode then latest_raw w' else latest w')
            = Some (stamped now p) /\
            stamped now p !! "timestamp" = Some (VFloat now))
         (posts evs).
Proof.
  intros evs srv w.
  assert (Hsend : forall img dets,
    let p := send_image_data encode_image_to_base64 img dets send_raw_mode stamp in
    let w' := snd (receive_data srv (json (VDict p)) now w) in
    (exists ds', p !! "detections" = Some (VList ds') /\
       fst (receive_data srv (json (VDict p)) now w) = Success200 (length ds')) /\
    (if send_raw_mode then latest_raw w' else latest w') = Some (stamped now p) /\
    stamped now p !! "timestamp" = Some (VFloat now)).
  { intros img dets p w'.
    assert (Hraw : truthy (get p "raw_image" (VBool false)) = send_raw_mode).
    { subst p. unfold send_image_data, get. by simplify_map_eq. }
    split; [|split].
    - eexists. split; [subst p; unfold send_image_data; by simplify_map_eq|].
      unfold json. rewrite (receive_data_dict srv p now w ds eq_refl).
      cbn [fst]. unfold answer, srv. cbn [ble_handler].
      subst p. unfold get, stamped, send_image_data. by simplify_map_eq.
    - pose proof (receive_data_dict_latest srv p now w ds eq_refl) as Hl.
      rewrite Hraw in Hl. exact Hl.
    - unfold stamped. by rewrite lookup_insert_eq. }
  subst evs. unfold iteration. destruct send_raw_mode.
  - destruct frame as [f|]; cbn; [constructor; [apply Hsend|constructor]|constructor].
  - destruct (get_cropped_image frame) as [cropped|]; cbn;
      [constructor; [apply Hsend|constructor]|constructor].
Qed.

(** ** What the monitor shows *)

Import Display.

Lemma draw_values_dicts (str : value -> string) (format_2f : Q -> string)
    (rows : Z) (dets : list dict) :
  draw_values str format_2f rows (VList (VDict <$> dets)) =
  draw_detections str format_2f rows dets.
Proof.
  unfold draw_values. cbn [iterate].
  induction dets as [|d dets IH]; [done|].
  cbn [fmap list_fmap draw_elements draw_detections draw_element].
  fold (@fmap list _ dict value VDict dets). by rewrite IH.
Qed.

(** What the sender's detections look like once drawn. *)
Lemma draw_detections_collect (rnd : Q -> Q) (str : value -> string)
    (format_2f : Q -> string) (names : gmap Z string) (rows : Z)
    (boxes : list box) :
  let plot b :=
    let x := trunc (midpoint rnd (x1 b) (x2 b)) in
    let row := (rows - trunc (fsub rnd (inject_Z rows)
                                (midpoint rnd (y1 b) (y2 b))))%Z in
    [Circle (x, row) 5;
     PutText (str (VStr (default "" (names !! trunc (cls b))))
                +:+ " (" +:+ format_2f (conf b) +:+ ")")
             ((x + 10)%Z, row)] in
  draw_detections str format_2f rows (collect rnd names rows boxes) =
  Some (mjoin (plot <$> filter (fun b => trunc (cls b) ∈ ids names) boxes)).
Proof.
  intros plot. induction boxes as [|b boxes IH]; [done|].
  cbn [collect]. rewrite filter_cons.
  destruct (decide (trunc (cls b) ∈ ids names)) as [Hin|Hout].
  - rewrite bool_decide_eq_true_2 by done.
    cbn [fmap list_fmap mjoin list_join].
    apply draw_detections_cons; [|exact IH].
    unfold detection.
    eapply draw_one_center; [by simplify_map_eq|reflexivity|reflexivity|].
    unfold label, get. by simplify_map_eq.
  - by rewrite bool_decide_eq_false_2.
Qed.

(** X18. A payload without an image, or with an empty one, is never shown,
    whatever else it carries: [process_detection_data] returns no image
    and neither tab displays anything. *)
Theorem payload_without_image_shows_nothing (str : value -> string)
    (format_2f : Q -> string) (imdecode : string -> option image)
    (data : dict) :
  if truthy (get data "image" VNone) then True
  else
    process_detection_data str format_2f imdecode data = Some (None, NoImageData) /\
    show_processed str format_2f imdecode data = Some Waiting /\
    show_raw str format_2f imdecode data = Some Waiting.
Proof.
  destruct (truthy (get data "image" VNone)) eqn:Himg; [done|].
  assert (Hp : process_detection_data str format_2f imdecode data
               = Some (None, NoImageData)).
  { unfold process_detection_data. by rewrite Himg. }
  unfold show_processed, show_raw. rewrite Hp.
  split; [done|]. split; by destruct (_ && _).
Qed.

(** X19. On a raw payload nothing is drawn: the decoded image is returned as
    it is, whatever the payload has under ["detections"], even a value
    [draw_detections] would raise on. *)
Theorem raw_payload_is_shown_undrawn (str : value -> string)
    (format_2f : Q -> string) (imdecode : string -> option image)
    (data : dict) (b64 : string) (img : image) :
  data !! "image" = Some (VStr b64) ->
  b64 <> "" ->
  imdecode b64 = Some img ->
  truthy (get data "raw_image" (VBool false)) = true ->
  process_detection_data str format_2f imdecode data
    = Some (Some {| base := img; drawn := [] |}, RawCameraImage) /\
  show_raw str format_2f imdecode data
    = Some (Shown {| base := img; drawn := [] |} RawCameraImage).
Proof.
  intros Himg Hne Hdec Hraw.
  assert (Hp : process_detection_data str format_2f imdecode data
               = Some (Some {| base := img; drawn := [] |}, RawCameraImage)).
  { unfold process_detection_data, get. rewrite Himg.
    cbn [default from_option id truthy decode_base64_image].
    apply String.eqb_neq in Hne. rewrite Hne. cbn [negb].
    rewrite Hdec. unfold get in Hraw. by rewrite Hraw. }
  split; [done|]. unfold show_raw. rewrite Hp, Hraw.
  assert (truthy (VDict data) = true) as ->.
  { cbn. apply negb_true_iff, bool_decide_eq_false. intros ->. done. }
  done.
Qed.

Lemma raw_payload_is_shown_undrawn_witness :
  let str := fun v : value => match v with VStr s => s | _ => ""%string end in
  let format_2f := fun _ : Q => "0.90"%string in
  let imdecode := fun s : string =>
    Some {| shape0 := 480; shape1 := 640; pixels := s |} in
  Scenario.raw_with_junk !! "image" = Some (VStr "/9j/4AAQ") /\
  "/9j/4AAQ" <> "" /\
  truthy (get Scenario.raw_with_junk "raw_image" (VBool false)) = true /\
  show_raw str format_2f imdecode Scenario.raw_with_junk
    = Some (Shown {| base := Scenario.frame; drawn := [] |} RawCameraImage).
Proof.
  intros str format_2f imdecode.
  assert (H1 : Scenario.raw_with_junk !! "image" = Some (VStr "/9j/4AAQ"))
    by (vm_compute; reflexivity).
  assert (H2 : "/9j/4AAQ" <> "") by discriminate.
  assert (H3 : truthy (get Scenario.raw_with_junk "raw_image" (VBool false)) = true)
    by (vm_compute; reflexivity).
  split; [exact H1|]. split; [exact H2|]. split; [exact H3|].
  destruct (raw_payload_is_shown_undrawn str format_2f imdecode
              Scenario.raw_with_junk "/9j/4AAQ" Scenario.frame H1 H2 eq_refl H3)
    as [_ H].
  exact H.
Defined.


(** X21. The processed tab never shows an image with the status
    [No detections found]: a payload with an empty detection list, or
    none, is not displayed at all, although its image may decode.  The
    raw tab shows nothing but raw camera images. *)
Theorem tabs_show_detections_or_raw_only (str : value -> string)
    (format_2f : Q -> string) (imdecode : string -> option image)
    (data : dict) :
  match show_processed str format_2f imdecode data with
  | Some (Shown _ st) => st <> NoDetections
  | _ => True
  end /\
  match show_raw str format_2f imdecode data with
  | Some (Shown _ st) => st = RawCameraImage
  | _ => True
  end /\
  show_processed str format_2f imdecode (<["detections" := VList []]> data)
    = Some Waiting /\
  show_processed str format_2f imdecode (delete "detections" data)
    = Some Waiting.
Proof.
  split; [|split; [|split]].
  - unfold show_processed.
    destruct (truthy (VDict data)); [|done]. cbn [andb].
    destruct (truthy (get data "detections" VNone)) eqn:Hd; [|done].
    assert (truthy (get data "detections" (VList [])) = true) as Hd'.
    { unfold get in *. by destruct (data !! "detections"). }
    unfold process_detection_data. rewrite Hd'.
    destruct (negb _); [done|]. destruct (decode_base64_image _ _); [|done].
    destruct (truthy (get data "raw_image" _)); [done|].
    destruct (draw_values _ _ _ _); [|done]. by destruct (len _).
  - unfold show_raw.
    destruct (truthy (VDict data)); [|done]. cbn [andb].
    destruct (truthy (get data "raw_image" (VBool false))) eqn:Hr; [|done].
    unfold process_detection_data. rewrite Hr.
    destruct (negb _); [done|]. by destruct (decode_base64_image _ _).
  - unfold show_processed, get. rewrite lookup_insert_eq. cbn.
    by rewrite andb_false_r.
  - unfold show_processed, get. rewrite lookup_delete_eq. cbn.
    by rewrite andb_false_r.
Qed.

(** ** From the camera to the screen *)

(** X22. A frame the sender posts in processed mode, once the server has
    stored it and [GET /get] has returned it, is shown with one circle
    and one label for every box of a class of interest, in the order of
    the boxes, under the status that counts them; with no such box it is
    not shown.  The image the monitor decodes has the height of the
    posted frame. *)
Theorem posted_detections_reach_the_screen
    (rnd : Q -> Q) (encode_image_to_base64 : image -> string)
    (get_cropped_image : option image -> option image)
    (names : gmap Z string) (model : image -> list box)
    (str : value -> string) (format_2f : Q -> string)
    (imdecode : string -> option image)
    (srv : FlaskServer) (h : heap) (ds : DataStorage) (now : Q)
    (frame : option image) (stamp : string) (cropped img : image) :
  get_cropped_image frame = Some cropped ->
  encode_image_to_base64 cropped <> "" ->
  imdecode (encode_image_to_base64 cropped) = Some img ->
  shape0 img = shape0 cropped ->
  let rows := shape0 cropped in
  let kept := filter (fun b => trunc (cls b) ∈ ids names) (model cropped) in
  let plot b :=
    let x := trunc (midpoint rnd (x1 b) (x2 b)) in
    let row := (rows - trunc (fsub rnd (inject_Z rows)
                                (midpoint rnd (y1 b) (y2 b))))%Z in
    [Circle (x, row) 5;
     PutText (str (VStr (default "" (names !! trunc (cls b))))
                +:+ " (" +:+ format_2f (conf b) +:+ ")")
             ((x + 10)%Z, row)] in
  exists p body,
    posts (iteration rnd encode_image_to_base64 get_cropped_image names model
             false frame stamp) = [p] /\
    get_data (snd (receive_data srv (json (VDict p)) now
                     {| w_objs := h; data_store := Some ds |})) = Ok body /\
    show_processed str format_2f imdecode body =
    Some (match kept with
          | [] => Waiting
          | _ :: _ => Shown {| base := img; drawn := mjoin (plot <$> kept) |}
                            (Detections (length kept))
          end).
Proof.
  intros Hcrop Hne Hdec Hrows rows kept plot.
  set (p := send_image_data encode_image_to_base64 cropped
              (collect rnd names rows (model cropped)) false stamp).
  exists p, (stamped now p). split; [|split].
  - unfold iteration. by rewrite Hcrop.
  - pose proof (receive_data_dict_latest srv p now
                  {| w_objs := h; data_store := Some ds |} ds eq_refl) as Hl.
    assert (truthy (get p "raw_image" (VBool false)) = false) as Hraw.
    { unfold p, send_image_data, get. by simplify_map_eq. }
    rewrite Hraw in Hl. unfold latest in Hl. unfold get_data.
    destruct (view _); [|done]. cbn in Hl. by injection Hl as ->.
  - assert (Hdets : stamped now p !! "detections" =
                    Some (VList (VDict <$> collect rnd names rows (model cropped)))).
    { unfold p, stamped, send_image_data. by simplify_map_eq. }
    assert (Himg : stamped now p !! "image" =
                   Some (VStr (encode_image_to_base64 cropped))).
    { unfold p, stamped, send_image_data. by simplify_map_eq. }
    assert (Hraw : stamped now p !! "raw_image" = Some (VBool false)).
    { unfold p, stamped, send_image_data. by simplify_map_eq. }
    assert (Hfull : truthy (VDict (stamped now p)) = true).
    { cbn. apply negb_true_iff, bool_decide_eq_false. intros Hempty.
      by rewrite Hempty in Himg. }
    unfold show_processed, process_detection_data, get.
    rewrite Hfull, Hdets, Himg, Hraw.
    cbn [default from_option id truthy decode_base64_image andb].
    apply String.eqb_neq in Hne. rewrite Hne, Hdec. cbn [negb].
    rewrite draw_values_dicts, Hrows. fold rows.
    rewrite (draw_detections_collect rnd str format_2f names rows (model cropped)).
    rewrite collect_filter. fold kept. cbn [len]. rewrite !length_fmap. fold plot.
    by destruct kept.
Qed.

(** A frame 480 rows high with one arch centred at row 30.5. *)
Lemma posted_detections_reach_the_screen_witness :
  let encode := fun img : image => pixels img in
  let crop := fun f : option image => f in
  let model := fun _ : image => [Scenario.arch_box] in
  let str := fun v : value => match v with VStr s => s | _ => ""%string end in
  let format_2f := fun _ : Q => "0.90"%string in
  let imdecode := fun s : string =>
    Some {| shape0 := 480; shape1 := 640; pixels := s |} in
  let srv := {| ble_handler := None |} in
  crop (Some Scenario.frame) = Some Scenario.frame /\
  encode Scenario.frame <> "" /\
  imdecode (encode Scenario.frame) = Some Scenario.frame /\
  exists p body,
    posts (iteration rnd_grid encode crop Scenario.names model false
             (Some Scenario.frame) "20250101_120000") = [p] /\
    show_processed str format_2f imdecode body =
    Some (Shown {| base := Scenario.frame;
                   drawn := [Circle (20%Z, 31%Z) 5;
                             PutText "arch (0.90)" (30%Z, 31%Z)] |}
                (Detections 1)).
Proof.
  intros encode crop model str format_2f imdecode srv.
  assert (H2 : encode Scenario.frame <> "") by discriminate.
  split; [reflexivity|]. split; [exact H2|]. split; [reflexivity|].
  destruct (posted_detections_reach_the_screen rnd_grid encode crop
              Scenario.names model str format_2f imdecode srv ∅ init
              (inject_Z 1700000000) (Some Scenario.frame) "20250101_120000"
              Scenario.frame Scenario.frame eq_refl H2 eq_refl eq_refl)
    as (p & body & Hp & _ & Hs).
  exists p, body. split; [exact Hp|].
  rewrite Hs. vm_compute. reflexivity.
Defined.

(** ** The labelling tool *)

Import Labeler.

Lemma lor_1 (b : Z) : Z.lor b 1 = if Z.odd b then b else (b + 1)%Z.
Proof.
  assert (Hbit : forall n, (0 <= n)%Z -> Z.testbit (Z.lor b 1) n =
                           if (n =? 0)%Z then true else Z.testbit b n).
  { intros n Hn. rewrite Z.lor_spec. destruct (Z.eqb_spec n 0) as [->|Hn0].
    - by rewrite orb_true_r.
    - replace (Z.testbit 1 n) with false; [by rewrite orb_false_r|].
      symmetry. apply Z.bits_above_log2; cbn; lia. }
  apply Z.bits_inj'. intros n Hn. rewrite (Hbit n Hn).
  destruct (Z.odd b) eqn:Hb.
  - destruct (Z.eqb_spec n 0) as [->|]; [by rewrite Z.bit0_odd|done].
  - assert (Z.even b = true) as Hev by (by rewrite <- Z.negb_odd, Hb).
    apply Z.even_spec in Hev as [k ->].
    destruct (Z.eqb_spec n 0) as [->|Hn0].
    + by rewrite Z.testbit_odd_0.
    + replace n with (Z.succ (n - 1)) by lia.
      rewrite Z.testbit_odd_succ, Z.testbit_even_succ by lia. done.
Qed.

(** X23. The kernel size handed to the blur is odd whatever the slider says,
    and is the slider's value or the next number. *)
Theorem kernel_is_odd (blur_val : Z) :
  Z.odd (kernel blur_val) = true /\
  (blur_val <= kernel blur_val <= blur_val + 1)%Z /\
  kernel (kernel blur_val) = kernel blur_val.
Proof.
  unfold kernel. rewrite !lor_1.
  destruct (Z.odd blur_val) eqn:Hb.
  - rewrite Hb. split; [done|]. split; [lia|done].
  - assert (Z.odd (blur_val + 1) = true) as Hb'.
    { rewrite Z.odd_add, Hb. done. }
    rewrite Hb'. split; [done|]. split; [lia|done].
Qed.

Local Open Scope Q_scope.

Lemma shape_label_in_classes (rnd : Q -> Q) (c : contour) (shape : string) :
  shape_label rnd c = Some shape ->
  exists cls_id, classes !! shape = Some cls_id /\ (0 <= cls_id <= 5)%Z.
Proof.
  unfold shape_label.
  destruct (Nat.eqb (vertices c) 3); [intros [= <-]; by exists 0%Z|].
  destruct (Nat.eqb (vertices c) 4).
  { destruct (div rnd _ _); [|done].
    destruct (_ && _); intros [= <-]; [by exists 5%Z|by exists 1%Z]. }
  destruct (Nat.eqb (vertices c) 5); [intros [= <-]; by exists 2%Z|].
  destruct (negb (convex c)); [intros [= <-]; by exists 2%Z|].
  destruct (div rnd _ _); [|done].
  destruct (Qle_bool _ _); intros [= <-]; [by exists 4%Z|by exists 3%Z].
Qed.

(** X24. A contour is never left [unidentified]: whenever a label is given it
    is one of the six classes, so the look-up in [classes] cannot fail,
    while ["unidentified"] itself is no key of it. *)
Theorem shape_label_is_a_class (rnd : Q -> Q) (c : contour) :
  match shape_label rnd c with
  | Some shape => exists cls_id, classes !! shape = Some cls_id /\ (0 <= cls_id <= 5)%Z
  | None => True
  end /\
  classes !! "unidentified"%string = None.
Proof.
  split; [|done].
  destruct (shape_label rnd c) as [shape|] eqn:Hs; [|done].
  by apply (shape_label_in_classes rnd c).
Qed.

Lemma rounding_between (rnd : Q -> Q) (lo hi : Z) (q : Q) :
  rounding rnd -> (Z.abs lo <= 2 ^ 53)%Z -> (Z.abs hi <= 2 ^ 53)%Z ->
  inject_Z lo <= q <= inject_Z hi ->
  inject_Z lo <= rnd q <= inject_Z hi.
Proof.
  intros [Hmono Hint] Hlo Hhi [H1 H2]. split.
  - rewrite <- (Hint lo Hlo). by apply Hmono.
  - rewrite <- (Hint hi Hhi). by apply Hmono.
Qed.

Lemma div_some (rnd : Q -> Q) (a b : Q) :
  ~ b == 0 -> div rnd a b = Some (rnd (a / b)).
Proof.
  intros Hb. unfold div. destruct (Qeq_bool b 0) eqn:Heq; [|done].
  by apply Qeq_bool_iff in Heq.
Qed.

(** A quotient of a part by the whole, rounded, is a fraction. *)
Lemma rounding_fraction (rnd : Q -> Q) (a b : Q) :
  rounding rnd -> 0 <= a -> a <= b -> 0 < b -> 0 <= rnd (a / b) <= 1.
Proof.
  intros Hr Ha Hab Hb.
  apply (rounding_between rnd 0 1 (a / b) Hr); [done|done|].
  split.
  - apply Qle_shift_div_l; [done|]. by rewrite Qmult_0_l.
  - apply Qle_shift_div_r; [done|]. by rewrite Qmult_1_l.
Qed.

(** X25. A contour of four vertices whose bounding box is as wide as it
    is high is labelled [cube], whatever the float format rounds to: the
    aspect ratio is exactly 1, and 0.95 and 1.05 stay on their sides of
    it. *)
Theorem square_is_a_cube (rnd : Q -> Q) (c : contour) :
  rounding rnd ->
  vertices c = 4%nat ->
  bw c = bh c ->
  (0 < bh c <= 2 ^ 53)%Z ->
  shape_label rnd c = Some "cube"%string.
Proof.
  intros Hr Hv Hw [Hpos Hmax]. pose proof Hr as [Hmono Hint].
  unfold shape_label. rewrite Hv, Hw. cbn [Nat.eqb].
  assert (Hh : float rnd (bh c) == inject_Z (bh c)).
  { unfold float. apply Hint. lia. }
  assert (Hnz : ~ float rnd (bh c) == 0).
  { rewrite Hh. intros H0. rewrite Zlt_Qlt in Hpos. rewrite H0 in Hpos.
    by apply Qlt_irrefl in Hpos. }
  rewrite (div_some rnd _ _ Hnz).
  assert (Hone : rnd (float rnd (bh c) / float rnd (bh c)) == 1).
  { rewrite (rounding_proper rnd Hr _ 1); [by apply (Hint 1%Z)|].
    by apply Qdiv_mult_l with (x := 1) in Hnz; rewrite Qmult_1_l in Hnz. }
  assert (Qle_bool (lit rnd (95 # 100)) (rnd (float rnd (bh c) / float rnd (bh c)))
          = true) as ->.
  { apply Qle_bool_iff. rewrite Hone. unfold lit.
    rewrite <- (Hint 1%Z) by done. by apply Hmono. }
  assert (Qle_bool (rnd (float rnd (bh c) / float rnd (bh c))) (lit rnd (105 # 100))
          = true) as ->.
  { apply Qle_bool_iff. rewrite Hone. unfold lit.
    rewrite <- (Hint 1%Z) by done. by apply Hmono. }
  done.
Qed.

Lemma square_is_a_cube_witness :
  vertices Samples.square = 4%nat /\
  bw Samples.square = bh Samples.square /\
  (0 < bh Samples.square <= 2 ^ 53)%Z /\
  shape_label rnd_grid Samples.square = Some "cube"%string.
Proof.
  assert (H3 : (0 < bh Samples.square <= 2 ^ 53)%Z) by (cbn; lia).
  split; [reflexivity|]. split; [reflexivity|]. split; [exact H3|].
  exact (square_is_a_cube rnd_grid Samples.square rnd_grid_rounding
           eq_refl eq_refl H3).
Defined.

Lemma shape_label_inside (rnd : Q -> Q) (H W : Z) (c : contour) :
  rounding rnd -> inside H W c -> is_Some (shape_label rnd c).
Proof.
  intros Hr (Hx & Hw & HxW & Hy & Hh & HyH & HW & HH).
  pose proof Hr as [Hmono Hint]. unfold shape_label.
  destruct (Nat.eqb (vertices c) 3); [done|].
  destruct (Nat.eqb (vertices c) 4).
  { assert (Hnz : ~ float rnd (bh c) == 0).
    { unfold float. rewrite Hint by lia. intros H0.
      rewrite Zlt_Qlt in Hh. rewrite H0 in Hh. by apply Qlt_irrefl in Hh. }
    by rewrite (div_some rnd _ _ Hnz). }
  destruct (Nat.eqb (vertices c) 5); [done|].
  destruct (negb (convex c)); [done|].
  assert (Hnz : ~ float rnd (bw c * bh c) == 0).
  { unfold float. intros H0.
    assert (inject_Z 1 <= rnd (inject_Z (bw c * bh c))) as Hge.
    { rewrite <- (Hint 1%Z) by done. apply Hmono. rewrite <- Zle_Qle. nia. }
    rewrite H0 in Hge. by apply Qle_not_lt in Hge. }
  by rewrite (div_some rnd _ _ Hnz).
Qed.

Lemma centre_fraction (rnd : Q -> Q) (x w W : Z) :
  rounding rnd ->
  (0 <= x)%Z -> (0 < w)%Z -> (x + w <= W)%Z -> (W <= 2 ^ 53)%Z ->
  exists half n,
    div rnd (inject_Z w) 2 = Some half /\
    div rnd (rnd (float rnd x + half)) (float rnd W) = Some n /\
    0 <= n <= 1.
Proof.
  intros Hr Hx Hw HxW HW. pose proof Hr as [Hmono Hint].
  assert (HfW : float rnd W == inject_Z W) by (apply Hint; lia).
  assert (Hfx : float rnd x == inject_Z x) by (apply Hint; lia).
  assert (HWpos : 0 < float rnd W).
  { rewrite HfW. change 0 with (inject_Z 0). rewrite <- Zlt_Qlt. lia. }
  assert (Hw0 : 0 <= inject_Z w).
  { change 0 with (inject_Z 0). rewrite <- Zle_Qle. lia. }
  assert (Hhalf : inject_Z 0 <= rnd (inject_Z w / 2) <= inject_Z w).
  { apply (rounding_between rnd 0 w _ Hr); [done|lia|].
    change (inject_Z 0) with 0. split.
    - apply Qle_shift_div_l; [done|]. by rewrite Qmult_0_l.
    - apply Qle_shift_div_r; [done|]. lra. }
  assert (Hcx : inject_Z 0 <= rnd (float rnd x + rnd (inject_Z w / 2)) <= inject_Z W).
  { apply (rounding_between rnd 0 W _ Hr); [done|lia|].
    rewrite Hfx. destruct Hhalf as [Hh1 Hh2]. change (inject_Z 0) with 0 in *.
    assert (0 <= inject_Z x) by (change 0 with (inject_Z 0); rewrite <- Zle_Qle; lia).
    assert (inject_Z x + inject_Z w <= inject_Z W).
    { rewrite <- inject_Z_plus, <- Zle_Qle. lia. }
    split; lra. }
  exists (rnd (inject_Z w / 2)), (rnd (rnd (float rnd x + rnd (inject_Z w / 2)) / float rnd W)).
  split; [by apply div_some|].
  split.
  { apply div_some. intros H0. rewrite H0 in HWpos. by apply Qlt_irrefl in HWpos. }
  apply rounding_fraction; [done| | |done].
  - apply Hcx.
  - rewrite HfW. apply Hcx.
Qed.

Lemma size_fraction (rnd : Q -> Q) (w W : Z) :
  rounding rnd -> (0 < w)%Z -> (w <= W)%Z ->
  exists n, div rnd (inject_Z w) (inject_Z W) = Some n /\ 0 <= n <= 1.
Proof.
  intros Hr Hw HwW.
  assert (HWpos : 0 < inject_Z W).
  { change 0 with (inject_Z 0). rewrite <- Zlt_Qlt. lia. }
  exists (rnd (inject_Z w / inject_Z W)). split.
  { apply div_some. intros H0. rewrite H0 in HWpos. by apply Qlt_irrefl in HWpos. }
  apply rounding_fraction; [done| | |done].
  - change 0 with (inject_Z 0). rewrite <- Zle_Qle. lia.
  - rewrite <- Zle_Qle. lia.
Qed.

Lemma label_contour_inside (rnd : Q -> Q) (H W : Z) (c : contour) :
  rounding rnd -> inside H W c ->
  exists l, label_contour rnd H W c = Some l /\ normalised l.
Proof.
  intros Hr Hin. pose proof Hin as (Hx & Hw & HxW & Hy & Hh & HyH & HW & HH).
  destruct (shape_label_inside rnd H W c Hr Hin) as [shape Hshape].
  destruct (shape_label_in_classes rnd c shape Hshape) as (cls_id & Hcls & Hrange).
  destruct (centre_fraction rnd (bx c) (bw c) W Hr Hx Hw HxW HW)
    as (half_w & ncx & Hhw & Hncx & Hcx).
  destruct (centre_fraction rnd (by_ c) (bh c) H Hr Hy Hh HyH HH)
    as (half_h & ncy & Hhh & Hncy & Hcy).
  destruct (size_fraction rnd (bw c) W Hr Hw) as (nw & Hnw & Hw1); [lia|].
  destruct (size_fraction rnd (bh c) H Hr Hh) as (nh & Hnh & Hh1); [lia|].
  exists (cls_id, ncx, ncy, nw, nh). split; [|done].
  unfold label_contour. rewrite Hshape, Hcls, Hhw, Hhh. cbn zeta.
  by rewrite Hncx, Hncy, Hnw, Hnh.
Qed.

(** X26. In a frame whose contours lie inside it, the
    labelling raises nothing: it gives one line for each contour of area
    300 or more, in their order, each with one of the six classes and a
    centre and a size that are fractions between 0 and 1; smaller contours
    get no line. *)
Theorem labels_are_normalised (rnd : Q -> Q) (H W : Z) (contours : list contour) :
  rounding rnd ->
  Forall (inside H W) contours ->
  exists ls,
    detect_shapes_and_label rnd H W contours = Some ls /\
    Forall2 (fun c l => label_contour rnd H W c = Some l)
            (List.filter large contours) ls /\
    Forall normalised ls.
Proof.
  intros Hr Hall. induction Hall as [|c rest Hc Hrest IH].
  { exists []. by repeat split; constructor. }
  destruct IH as (ls & Hls & Hlines & Hnorm).
  cbn [detect_shapes_and_label List.filter]. unfold large at 1.
  destruct (Qle_bool 300 (area c)); cbn [negb].
  - destruct (label_contour_inside rnd H W c Hr Hc) as (l & Hl & Hn).
    exists (l :: ls). rewrite Hl, Hls. repeat split; by constructor.
  - by exists ls.
Qed.

Lemma labels_are_normalised_witness :
  rounding rnd_grid /\
  Forall (inside 480 640) [Samples.speck; Samples.square] /\
  exists ls,
    detect_shapes_and_label rnd_grid 480 640 [Samples.speck; Samples.square] = Some ls /\
    Forall2 (fun c l => label_contour rnd_grid 480 640 c = Some l)
            (List.filter large [Samples.speck; Samples.square]) ls /\
    Forall normalised ls.
Proof.
  assert (Hin : Forall (inside 480 640) [Samples.speck; Samples.square]).
  { repeat constructor; cbn; lia. }
  split; [exact rnd_grid_rounding|]. split; [exact Hin|].
  exact (labels_are_normalised rnd_grid 480 640 [Samples.speck; Samples.square]
           rnd_grid_rounding Hin).
Defined.
